(** * flarepred: the flare trigger and flare end conditions

    A shallow embedding of [RealTime/flare_conditions.py].  The module holds
    nine threshold predicates over a GOES telemetry table and two registries
    (label to predicate dictionaries) that an alerting loop consults.

    The telemetry table [goes_data] is a pandas object indexed by column
    name; every predicate reads a column with [goes_data[name]] and takes
    its most recent sample with [.iloc[-1]].  Both reads can raise
    ([KeyError] for an unknown column, [IndexError] for a position outside
    the column), so the predicates live in a small state and exception
    monad over the table.  Samples are IEEE binary64 numbers, modelled by
    Rocq's primitive floats.

    The second part embeds the class [QTimeWidget] of
    [RealTime/QTimeWidget.py]: the Python attributes of the widget, the Qt
    objects it owns, and its methods as computations on that state. *)

From Stdlib Require Import ZArith Floats.
From stdpp Require Import gmap strings list.

Local Open Scope Z_scope.

(* A decimal literal denotes the nearest binary64 value, in Python as here. *)
Set Warnings "-inexact-float".

(** ** Python floats and their comparisons *)

(** [x > y] and [x < y] on binary64 values; both are false when an operand
    is NaN. *)
Definition gt (x y : float) : bool := PrimFloat.ltb y x.
Definition lt (x y : float) : bool := PrimFloat.ltb x y.

(** ** The telemetry table and the exceptions of its accessors *)

(** A sample set: column name to the column's samples, oldest first. *)
Abbreviation sample_set := (gmap string (list float)).

Inductive exn : Type :=
  | KeyError (key : string)
  | IndexError.

Inductive result (A : Type) : Type :=
  | Ok (a : A)
  | Raise (e : exn).
Arguments Ok {A} a.
Arguments Raise {A} e.

(** A computation over the table [goes_data] refers to: it returns a value
    or raises, and hands back the table as it left it. *)
Definition M (A : Type) : Type := sample_set -> result A * sample_set.

#[global] Instance M_ret : MRet M := fun A a s => (Ok a, s).
#[global] Instance M_bind : MBind M := fun A B f m s =>
  match m s with
  | (Ok a, s') => f a s'
  | (Raise e, s') => (Raise e, s')
  end.

(** [goes_data[key]] *)
Definition getitem (key : string) : M (list float) := fun s =>
  match s !! key with
  | Some ser => (Ok ser, s)
  | None => (Raise (KeyError key), s)
  end.

(** [ser.iloc[i]]: a negative position counts from the end, a position
    outside the series raises [IndexError]. *)
Definition iloc_get (ser : list float) (i : Z) : option float :=
  let n := Z.of_nat (length ser) in
  let k := if i <? 0 then n + i else i in
  if (0 <=? k) && (k <? n) then ser !! Z.to_nat k else None.

Definition iloc (ser : list float) (i : Z) : M float := fun s =>
  match iloc_get ser i with
  | Some v => (Ok v, s)
  | None => (Raise IndexError, s)
  end.

(** ** The predicates of [flare_conditions.py] *)

Definition xrsa_condition : M bool :=
  a ← getitem "xrsa";
  let flux_val := 4.5e-7%float in
  v ← iloc a (-1);
  mret (gt v flux_val).

Definition xrsb_condition : M bool :=
  b ← getitem "xrsb";
  let flux_val := 5e-6%float in
  v ← iloc b (-1);
  mret (gt v flux_val).

Definition xrsb_condition2 : M bool :=
  b ← getitem "xrsb";
  let flux_val := 3e-6%float in
  v ← iloc b (-1);
  mret (gt v flux_val).

Definition temp5min_condition : M bool :=
  temp ← getitem "5min Temp";
  let temp_val := 10.0%float in
  v ← iloc temp (-1);
  mret (gt v temp_val).

Definition xrsa_3mindiff_condition : M bool :=
  xrsa3min ← getitem "3minxrsadiff";
  let xrsa3min_val := 5e-8%float in
  v ← iloc xrsa3min (-1);
  mret (gt v xrsa3min_val).

Definition em3min_condition : M bool :=
  em ← getitem "5min emission measure";
  let em_val := 1e47%float in
  v ← iloc em (-1);
  mret (gt v em_val).

Definition special_flare_trigger : M bool := mret true.

Definition magic_flare_trigger : M bool := mret true.

Definition flare_end_condition : M bool :=
  a ← getitem "xrsa";
  b ← getitem "xrsb";
  let flux_val := 2.5e-6%float in
  let flux_deriv_val := 1e-9%float in
  v ← iloc b (-1);
  mret (lt v flux_val).

(** ** The registries *)

(** A Python dictionary from label to predicate, in insertion order. *)
Definition FLARE_ALERT_MAP : list (string * M bool) :=
  [ ("XRSB>5e-6 W/m<sup>2</sup>"%string, xrsb_condition);
    ("dEM (3 min)>1e47cm<sup>-2</sup>"%string, em3min_condition) ].

Definition FLARE_ALERT_MAP_NEW : list (string * M bool) :=
  [ ("XRSB>3e-6 W/m<sup>2</sup><br>5 minute countdown<br>Last XRSA must be increasing"%string,
     xrsb_condition2) ].

(** Modelled from the spec: the loop that consults a registry is not in
    [flare_conditions.py].  [evaluate] invokes the predicate of each entry on
    the sample set, in the order of the dictionary, and collects the verdicts
    in a mapping from label to boolean; an exception of a predicate ends the
    evaluation and reaches the caller. *)
Fixpoint evaluate_from (verdicts : gmap string bool)
    (registry : list (string * M bool)) : M (gmap string bool) :=
  match registry with
  | [] => mret verdicts
  | (label, predicate) :: rest =>
      verdict ← predicate;
      evaluate_from (<[label := verdict]> verdicts) rest
  end.

Definition evaluate (registry : list (string * M bool)) : M (gmap string bool) :=
  evaluate_from ∅ registry.

(** All the predicates the module defines, registered or not. *)
Definition predicates : list (M bool) :=
  [ xrsa_condition; xrsb_condition; xrsb_condition2; temp5min_condition;
    xrsa_3mindiff_condition; em3min_condition; special_flare_trigger;
    magic_flare_trigger; flare_end_condition ].

(** ** Outcomes and observations used in the statements *)

Definition result_map {A B : Type} (f : A -> B) (r : result A) : result B :=
  match r with
  | Ok a => Ok (f a)
  | Raise e => Raise e
  end.

(** The most recent sample of a column, as [goes_data[key].iloc[-1]] gives
    it. *)
Definition last_sample (key : string) (s : sample_set) : result float :=
  match s !! key with
  | None => Raise (KeyError key)
  | Some ser =>
      match last ser with
      | Some v => Ok v
      | None => Raise IndexError
      end
  end.

(** Two sample sets have the same columns and, column by column, the same
    last and second-to-last samples (the same positions are missing in
    both when a column is shorter than that). *)
Definition agree_last2 (s1 s2 : sample_set) : Prop :=
  dom s1 = dom s2 /\
  forall key ser1 ser2,
    s1 !! key = Some ser1 -> s2 !! key = Some ser2 ->
    iloc_get ser1 (-1) = iloc_get ser2 (-1) /\
    iloc_get ser1 (-2) = iloc_get ser2 (-2).

(** A computation that hands the sample set back as it received it. *)
Definition read_only {A : Type} (m : M A) : Prop := forall s, (m s).2 = s.

(** ** Sample sets of the scenarios *)

Definition xrsb_only : sample_set := {[ "xrsb"%string := [4e-6; 2e-6]%float ]}.

Definition xrsa_xrsb : sample_set :=
  <[ "xrsa"%string := [3e-7; 1e-7]%float ]> xrsb_only.

Definition xrsb_em : sample_set :=
  <[ "xrsb"%string := [1e-6; 6e-6]%float ]>
  {[ "5min emission measure"%string := [2e46; 2e47]%float ]}.

Definition quiet_xrsa : sample_set :=
  <[ "xrsa"%string := [1e-8]%float ]> {[ "xrsb"%string := [9e-6; 2e-6]%float ]}.

Definition long_history : sample_set :=
  <[ "xrsb"%string := [9e-6; 8e-6; 1e-6; 6e-6]%float ]>
  {[ "5min emission measure"%string := [5e48; 2e46; 2e47]%float ]}.

(** ** The threshold triggers side by side *)

(** The six triggers that compare the newest sample of one column with a
    constant: the function, the column it reads and its threshold. *)
Definition threshold_conditions : list (M bool * (string * float)) :=
  [ (xrsa_condition, ("xrsa"%string, 4.5e-7%float));
    (xrsb_condition, ("xrsb"%string, 5e-6%float));
    (xrsb_condition2, ("xrsb"%string, 3e-6%float));
    (temp5min_condition, ("5min Temp"%string, 10.0%float));
    (xrsa_3mindiff_condition, ("3minxrsadiff"%string, 5e-8%float));
    (em3min_condition, ("5min emission measure"%string, 1e47%float)) ].

(** A table whose newest [xrsb] reading is a data gap. *)
Definition xrsb_gap : sample_set :=
  <[ "xrsa"%string := [3e-7; 1e-7]%float ]>
  {[ "xrsb"%string := [4e-6; PrimFloat.nan]%float ]}.

(** ** The time display widget of [QTimeWidget.py] *)

Module QTimeWidget.

(** Values a caller passes as [include]; the class stores them as they
    come and tests their truth value. *)
Inductive pyval : Type :=
  | PyNone
  | PyBool (b : bool)
  | PyStr (s : string).

(** [bool(v)] *)
Definition truthy (v : pyval) : bool :=
  match v with
  | PyNone => false
  | PyBool b => b
  | PyStr s => negb (String.eqb s EmptyString)
  end.

Inductive error : Type :=
  | AttributeError (name : string)
  | RuntimeError.

Inductive outcome (A : Type) : Type :=
  | Return (a : A)
  | Throw (e : error).
Arguments Return {A} a.
Arguments Throw {A} e.

(** The Qt objects the widget owns, with the properties the class sets. *)
Inductive policy : Type := Preferred | MinimumExpanding.
Inductive alignment : Type := AlignLeftVCenter | AlignCenter.
Inductive slot : Type := slot_cycle_times.

Record QLabel : Type := mkQLabel {
  text : string;
  alignment_flag : alignment;
  styleSheet : string }.

(** A grid layout: the widgets it manages, each with its row and column. *)
Record QGridLayout : Type := mkQGridLayout {
  items : list (nat * (nat * nat));
  contentsMargins : option (Z * Z * Z * Z) }.

Record QTimer : Type := mkQTimer {
  interval : Z;
  timeout : list slot;
  active : bool }.

(** The widget object.  Its Python attributes are kept by the kind of value
    the class assigns to them: the include flags, the strings, the
    references to labels, the grid layout of [self._layout] and the timer of
    [self.timer]; an attribute that has not been assigned yet is absent.
    [labels] is the store of the [QLabel] objects created so far, [layout]
    tells whether [setLayout] has installed [self._layout], and [updates]
    counts the repaints requested with [self.update()]. *)
Record widget : Type := mkWidget {
  flags : gmap string pyval;
  strs : gmap string string;
  refs : gmap string nat;
  labels : gmap nat QLabel;
  allocated : nat;
  _layout : option QGridLayout;
  timer : option QTimer;
  sizePolicy : policy * policy;
  layout : bool;
  updates : nat }.

(** A [QWidget] as [QWidget.__init__] leaves it. *)
Definition blank : widget :=
  mkWidget ∅ ∅ ∅ ∅ 0 None None (Preferred, Preferred) false 0.

(** Methods run on the widget, return or raise, and leave the widget in a
    new state. *)
Definition W (A : Type) : Type := widget -> outcome A * widget.

#[global] Instance W_ret : MRet W := fun A a w => (Return a, w).
#[global] Instance W_bind : MBind W := fun A B f m w =>
  match m w with
  | (Return a, w') => f a w'
  | (Throw e, w') => (Throw e, w')
  end.

Definition throw {A : Type} (e : error) : W A := fun w => (Throw e, w).

(** Reading and assigning attributes. *)
Definition get_flag (name : string) : W pyval := fun w =>
  match flags w !! name with
  | Some v => (Return v, w)
  | None => (Throw (AttributeError name), w)
  end.

Definition set_flag (name : string) (v : pyval) : W unit := fun w =>
  (Return tt,
   mkWidget (<[name := v]> (flags w)) (strs w) (refs w) (labels w) (allocated w)
     (_layout w) (timer w) (sizePolicy w) (layout w) (updates w)).

Definition get_str (name : string) : W string := fun w =>
  match strs w !! name with
  | Some v => (Return v, w)
  | None => (Throw (AttributeError name), w)
  end.

Definition set_str (name : string) (v : string) : W unit := fun w =>
  (Return tt,
   mkWidget (flags w) (<[name := v]> (strs w)) (refs w) (labels w) (allocated w)
     (_layout w) (timer w) (sizePolicy w) (layout w) (updates w)).

Definition get_ref (name : string) : W nat := fun w =>
  match refs w !! name with
  | Some l => (Return l, w)
  | None => (Throw (AttributeError name), w)
  end.

Definition set_ref (name : string) (l : nat) : W unit := fun w =>
  (Return tt,
   mkWidget (flags w) (strs w) (<[name := l]> (refs w)) (labels w) (allocated w)
     (_layout w) (timer w) (sizePolicy w) (layout w) (updates w)).

Definition get_layout : W QGridLayout := fun w =>
  match _layout w with
  | Some g => (Return g, w)
  | None => (Throw (AttributeError "_layout"), w)
  end.

Definition set_layout (g : QGridLayout) : W unit := fun w =>
  (Return tt,
   mkWidget (flags w) (strs w) (refs w) (labels w) (allocated w)
     (Some g) (timer w) (sizePolicy w) (layout w) (updates w)).

Definition get_timer : W QTimer := fun w =>
  match timer w with
  | Some t => (Return t, w)
  | None => (Throw (AttributeError "timer"), w)
  end.

Definition set_timer (t : QTimer) : W unit := fun w =>
  (Return tt,
   mkWidget (flags w) (strs w) (refs w) (labels w) (allocated w)
     (_layout w) (Some t) (sizePolicy w) (layout w) (updates w)).

(** [QLabel(text)]: a new label object. *)
Definition new_QLabel (t : string) : W nat := fun w =>
  (Return (allocated w),
   mkWidget (flags w) (strs w) (refs w)
     (<[allocated w := mkQLabel t AlignLeftVCenter EmptyString]> (labels w))
     (S (allocated w))
     (_layout w) (timer w) (sizePolicy w) (layout w) (updates w)).

(** A method of the label [l] that changes the label. *)
Definition on_label (l : nat) (f : QLabel -> QLabel) : W unit := fun w =>
  match labels w !! l with
  | Some lab =>
      (Return tt,
       mkWidget (flags w) (strs w) (refs w) (<[l := f lab]> (labels w)) (allocated w)
         (_layout w) (timer w) (sizePolicy w) (layout w) (updates w))
  | None => (Throw RuntimeError, w)
  end.

Definition setText (l : nat) (t : string) : W unit :=
  on_label l (fun lab => mkQLabel t (alignment_flag lab) (styleSheet lab)).

Definition setAlignment (l : nat) (a : alignment) : W unit :=
  on_label l (fun lab => mkQLabel (text lab) a (styleSheet lab)).

Definition setStyleSheet (l : nat) (style : string) : W unit :=
  on_label l (fun lab => mkQLabel (text lab) (alignment_flag lab) style).

(** [g.addWidget(l, row, column)] and [g.removeWidget(l)] on a grid. *)
Definition addWidget (g : QGridLayout) (l : nat) (row column : nat) : QGridLayout :=
  mkQGridLayout (items g ++ [(l, (row, column))]) (contentsMargins g).

Definition removeWidget (g : QGridLayout) (l : nat) : QGridLayout :=
  mkQGridLayout (filter (fun item => item.1 <> l) (items g)) (contentsMargins g).

Definition setContentsMargins (g : QGridLayout) (left top right bottom : Z) : QGridLayout :=
  mkQGridLayout (items g) (Some (left, top, right, bottom)).

(** [self.setSizePolicy(h, v)], [self.setLayout(self._layout)] and
    [self.update()]. *)
Definition setSizePolicy (h v : policy) : W unit := fun w =>
  (Return tt,
   mkWidget (flags w) (strs w) (refs w) (labels w) (allocated w)
     (_layout w) (timer w) (h, v) (layout w) (updates w)).

Definition setLayout : W unit := fun w =>
  (Return tt,
   mkWidget (flags w) (strs w) (refs w) (labels w) (allocated w)
     (_layout w) (timer w) (sizePolicy w) true (updates w)).

Definition update : W unit := fun w =>
  (Return tt,
   mkWidget (flags w) (strs w) (refs w) (labels w) (allocated w)
     (_layout w) (timer w) (sizePolicy w) (layout w) (S (updates w))).

(** [f"{s:width}"] on a string: padded with spaces on the right up to
    [width] characters, never cut. *)
Fixpoint spaces (n : nat) : string :=
  match n with
  | O => EmptyString
  | S n => String Ascii.Space (spaces n)
  end.

Definition ljust (width : nat) (s : string) : string :=
  String.append s (spaces (width - String.length s)).

(** [f"{prefix:15}{time:20}{postfix}"] *)
Definition label_format (prefix time postfix : string) : string :=
  String.append (ljust 15 prefix) (String.append (ljust 20 time) postfix).

Section Methods.

(** The [datetime] objects of the standard library and their [strftime]. *)
Variable datetime : Type.
Variable strftime : datetime -> string -> string.

(** What the three calls of [datetime.datetime.now] in [_get_times]
    return: the time in UTC, the local time and the time in
    [US/Mountain]. *)
Record clock : Type := mkClock {
  now_utc : datetime;
  now_local : datetime;
  now_mountain : datetime }.

Definition _time_style : W string := mret "border-width: 0px; color: black;"%string.

Definition _trigger_label_update : W unit := update.

Definition include_utc (include : pyval) : W unit :=
  set_flag "_utc" include;;
  (if negb (truthy include) then
     g ← get_layout;
     l ← get_ref "_label_utc";
     set_layout (removeWidget g l)
   else mret tt);;
  _trigger_label_update.

Definition include_local (include : pyval) : W unit :=
  set_flag "_local" include;;
  (if negb (truthy include) then
     g ← get_layout;
     l ← get_ref "_label_local";
     set_layout (removeWidget g l)
   else mret tt);;
  _trigger_label_update.

Definition include_WSMR (include : pyval) : W unit :=
  set_flag "_WSMR" include;;
  (if negb (truthy include) then
     g ← get_layout;
     l ← get_ref "_label_WSMR";
     set_layout (removeWidget g l)
   else mret tt);;
  _trigger_label_update.

Definition _get_times (now : clock) : W unit :=
  fmt ← get_str "_datetime_str_format";
  set_str "_utc_str" (strftime (now_utc now) fmt);;
  fmt ← get_str "_datetime_str_format";
  set_str "_local_str" (strftime (now_local now) fmt);;
  fmt ← get_str "_datetime_str_format";
  set_str "_WSMR_str" (strftime (now_mountain now) fmt).

Definition _update_labels (now : clock) : W unit :=
  _get_times now;;
  utc ← get_flag "_utc";
  (if truthy utc then
     l ← get_ref "_label_utc";
     prefix ← get_str "_utc_prefix";
     time ← get_str "_utc_str";
     postfix ← get_str "_utc_postfix";
     setText l (label_format prefix time postfix)
   else mret tt);;
  local ← get_flag "_local";
  (if truthy local then
     l ← get_ref "_label_local";
     prefix ← get_str "_local_prefix";
     time ← get_str "_local_str";
     postfix ← get_str "_local_postfix";
     setText l (label_format prefix time postfix)
   else mret tt);;
  WSMR ← get_flag "_WSMR";
  (if truthy WSMR then
     l ← get_ref "_label_WSMR";
     prefix ← get_str "_WSMR_prefix";
     time ← get_str "_WSMR_str";
     postfix ← get_str "_WSMR_postfix";
     setText l (label_format prefix time postfix)
   else mret tt).

Definition _build_labels (now : clock) : W unit :=
  utc ← new_QLabel EmptyString;
  local ← new_QLabel EmptyString;
  WSMR ← new_QLabel EmptyString;
  set_ref "_label_utc" utc;;
  set_ref "_label_local" local;;
  set_ref "_label_WSMR" WSMR;;
  _update_labels now.

Definition sizeHint : Z * Z := (250, 120).

(** [smallest_dim] on a painter whose device is [width] by [height]. *)
Definition smallest_dim (width height : Z) : Z :=
  if width <? height then width else height.

Definition cycle_times (now : clock) : W unit :=
  _update_labels now;;
  _trigger_label_update.

Definition __init__ (now : clock) : W unit :=
  setSizePolicy MinimumExpanding MinimumExpanding;;
  set_layout (mkQGridLayout [] None);;
  set_str "_datetime_str_format" "%Y/%m/%d, %H:%M:%S";;
  include_utc (PyStr "True");;
  include_local (PyStr "True");;
  include_WSMR (PyStr "True");;
  set_str "_utc_prefix" "UTC Time: ";; set_str "_utc_postfix" EmptyString;;
  set_str "_local_prefix" "Local Time: ";; set_str "_local_postfix" EmptyString;;
  set_str "_WSMR_prefix" "WSMR Time: ";; set_str "_WSMR_postfix" EmptyString;;
  _build_labels now;;
  (g ← get_layout; l ← get_ref "_label_utc"; set_layout (addWidget g l 0 0));;
  (g ← get_layout; l ← get_ref "_label_local"; set_layout (addWidget g l 0 1));;
  (g ← get_layout; l ← get_ref "_label_WSMR"; set_layout (addWidget g l 0 2));;
  (l ← get_ref "_label_utc"; setAlignment l AlignCenter);;
  (l ← get_ref "_label_local"; setAlignment l AlignCenter);;
  (l ← get_ref "_label_WSMR"; setAlignment l AlignCenter);;
  (g ← get_layout; setLayout);;
  (l ← get_ref "_label_utc"; style ← _time_style; setStyleSheet l style);;
  (l ← get_ref "_label_local"; style ← _time_style; setStyleSheet l style);;
  (l ← get_ref "_label_WSMR"; style ← _time_style; setStyleSheet l style);;
  (g ← get_layout; set_layout (setContentsMargins g 0 0 0 0));;
  set_timer (mkQTimer 0 [] false);;
  (t ← get_timer; set_timer (mkQTimer 900 (timeout t) (active t)));;
  (t ← get_timer; set_timer (mkQTimer (interval t) (timeout t ++ [slot_cycle_times]) (active t)));;
  (t ← get_timer; set_timer (mkQTimer (interval t) (timeout t) true)).

(** The calls a widget receives once it is built: the three [include_]
    methods from its owner and [cycle_times] from its timer. *)
Inductive call : Type :=
  | call_include_utc (include : pyval)
  | call_include_local (include : pyval)
  | call_include_WSMR (include : pyval)
  | call_cycle_times (now : clock).

Definition run (c : call) : W unit :=
  match c with
  | call_include_utc include => include_utc include
  | call_include_local include => include_local include
  | call_include_WSMR include => include_WSMR include
  | call_cycle_times now => cycle_times now
  end.

(** The states a widget can be in: built by [__init__], then any number of
    calls. *)
Inductive reachable : widget -> Prop :=
  | reachable_init now r w :
      __init__ now blank = (r, w) -> reachable w
  | reachable_call c w r w' :
      reachable w -> run c w = (r, w') -> reachable w'.

End Methods.

Arguments mkClock {datetime} now_utc now_local now_mountain.
Arguments now_utc {datetime} c.
Arguments now_local {datetime} c.
Arguments now_mountain {datetime} c.
Arguments _get_times {datetime} strftime now.
Arguments _update_labels {datetime} strftime now.
Arguments _build_labels {datetime} strftime now.
Arguments cycle_times {datetime} strftime now.
Arguments __init__ {datetime} strftime now.
Arguments call_cycle_times {datetime} now.
Arguments call_include_utc {datetime} include.
Arguments call_include_local {datetime} include.
Arguments call_include_WSMR {datetime} include.
Arguments run {datetime} strftime c.
Arguments reachable {datetime} strftime w.

(** What a user sees of a widget: the text of the label an attribute refers
    to, the widgets its grid manages, and whether the label of an attribute
    is among them. *)
Definition label_text (name : string) (w : widget) : option string :=
  l ← refs w !! name; text <$> labels w !! l.

Definition layout_items (w : widget) : list (nat * (nat * nat)) :=
  match _layout w with
  | Some g => items g
  | None => []
  end.

Definition in_layout (name : string) (w : widget) : Prop :=
  exists l, refs w !! name = Some l /\ l ∈ (layout_items w).*1.

(** The format of the time strings, as [__init__] assigns it. *)
Definition datetime_str_format : string := "%Y/%m/%d, %H:%M:%S".

(** A built widget, written out: the three flags, the three time strings,
    the texts of the three labels, the items of the grid and the number of
    repaints requested are the parts that vary. *)
Definition shape (fu fl fw : pyval) (su sl sw tu tl tw : string)
    (its : list (nat * (nat * nat))) (n : nat) : widget :=
  mkWidget
    (<[ "_utc"%string := fu ]> (<[ "_local"%string := fl ]> {[ "_WSMR"%string := fw ]}))
    (<[ "_datetime_str_format"%string := datetime_str_format ]>
     (<[ "_utc_prefix"%string := "UTC Time: "%string ]>
     (<[ "_utc_postfix"%string := EmptyString ]>
     (<[ "_local_prefix"%string := "Local Time: "%string ]>
     (<[ "_local_postfix"%string := EmptyString ]>
     (<[ "_WSMR_prefix"%string := "WSMR Time: "%string ]>
     (<[ "_WSMR_postfix"%string := EmptyString ]>
     (<[ "_utc_str"%string := su ]>
     (<[ "_local_str"%string := sl ]> {[ "_WSMR_str"%string := sw ]})))))))))
    (<[ "_label_utc"%string := 0%nat ]>
     (<[ "_label_local"%string := 1%nat ]> {[ "_label_WSMR"%string := 2%nat ]}))
    (<[ 0%nat := mkQLabel tu AlignCenter "border-width: 0px; color: black;" ]>
     (<[ 1%nat := mkQLabel tl AlignCenter "border-width: 0px; color: black;" ]>
      {[ 2%nat := mkQLabel tw AlignCenter "border-width: 0px; color: black;" ]}))
    3
    (Some (mkQGridLayout its (Some (0, 0, 0, 0))))
    (Some (mkQTimer 900 [slot_cycle_times] true))
    (MinimumExpanding, MinimumExpanding)
    true
    n.

Definition built (w : widget) : Prop :=
  exists fu fl fw su sl sw tu tl tw its n,
    w = shape fu fl fw su sl sw tu tl tw its n.

(** The three [include_] methods, each with the flag it assigns and the
    label it may take out of the grid. *)
Definition include_methods : list ((pyval -> W unit) * (string * string)) :=
  [ (include_utc, ("_utc"%string, "_label_utc"%string));
    (include_local, ("_local"%string, "_label_local"%string));
    (include_WSMR, ("_WSMR"%string, "_label_WSMR"%string)) ].

(** A clock for the examples: its readings are strings that [strftime]
    hands over as they are. *)
Definition plain_strftime (d : string) (format : string) : string := d.

Definition noon : clock string :=
  mkClock "2024/05/01, 12:00:00"%string "2024/05/01, 14:00:00"%string
    "2024/05/01, 06:00:00"%string.

Definition later : clock string :=
  mkClock "2024/05/01, 12:00:01"%string "2024/05/01, 14:00:01"%string
    "2024/05/01, 06:00:01"%string.

Definition at_noon : widget := (__init__ plain_strftime noon blank).2.

(** The widget built at noon after [include_local(False)], and after
    [include_local(True)] on top of that. *)
Definition local_out : widget := (include_local (PyBool false) at_noon).2.

Definition local_back : widget := (include_local (PyBool true) local_out).2.

(** The same widget with one more repaint requested. *)
Definition repaint (w : widget) : widget :=
  mkWidget (flags w) (strs w) (refs w) (labels w) (allocated w)
    (_layout w) (timer w) (sizePolicy w) (layout w) (S (updates w)).

End QTimeWidget.

(** ** Facts about binary64 comparisons *)

Lemma compare_cont_swap (p q : positive) :
  Pos.compare_cont Datatypes.Eq q p = CompOpp (Pos.compare_cont Datatypes.Eq p q).
Proof. symmetry. apply (Pos.compare_cont_antisym p q Datatypes.Eq). Qed.

Lemma SFcompare_swap (x y : spec_float) :
  SFcompare y x = option_map CompOpp (SFcompare x y).
Proof.
  destruct x as [sx|sx| |sx mx ex], y as [sy|sy| |sy my ey]; simpl;
    try reflexivity;
    repeat match goal with b : bool |- _ => destruct b end;
    simpl; try reflexivity;
    rewrite (Z.compare_antisym ey ex);
    destruct (ey ?= ex); simpl; try reflexivity;
    change (PosDef.Pos.compare_cont Datatypes.Eq my mx) with (Pos.compare_cont Datatypes.Eq my mx);
    rewrite (compare_cont_swap mx my); reflexivity.
Qed.

(** [x < y] holds exactly when the IEEE comparison of [x] with [y] is
    "less than". *)
Lemma lt_compare (x y : float) : lt x y = true <-> PrimFloat.compare x y = FLt.
Proof.
  unfold lt. rewrite FloatAxioms.ltb_spec, FloatAxioms.compare_spec. unfold SFltb.
  destruct (SFcompare (Prim2SF x) (Prim2SF y)) as [[| |]|]; simpl;
    split; congruence.
Qed.

(** [x > y] holds exactly when the IEEE comparison of [x] with [y] is
    "greater than". *)
Lemma gt_compare (x y : float) : gt x y = true <-> PrimFloat.compare x y = FGt.
Proof.
  unfold gt. rewrite FloatAxioms.ltb_spec, FloatAxioms.compare_spec. unfold SFltb.
  rewrite (SFcompare_swap (Prim2SF x) (Prim2SF y)).
  destruct (SFcompare (Prim2SF x) (Prim2SF y)) as [[| |]|]; simpl;
    split; congruence.
Qed.

(** ** Running the accessors *)

Lemma iloc_get_last (ser : list float) : iloc_get ser (-1) = last ser.
Proof.
  unfold iloc_get. rewrite last_lookup. simpl.
  destruct ser as [|v ser]; [reflexivity|].
  cbn [length]. rewrite Nat2Z.inj_succ.
  replace (Z.succ (Z.of_nat (length ser)) + -1) with (Z.of_nat (length ser)) by lia.
  rewrite Nat2Z.id.
  replace ((0 <=? Z.of_nat (length ser)) &&
           (Z.of_nat (length ser) <? Z.succ (Z.of_nat (length ser)))) with true.
  - reflexivity.
  - symmetry. apply andb_true_iff. split; [apply Z.leb_le | apply Z.ltb_lt]; lia.
Qed.

Lemma read_last (key : string) (f : float -> bool) (s : sample_set) :
  (ser ← getitem key; v ← iloc ser (-1); mret (f v)) s
  = (result_map f (last_sample key s), s).
Proof.
  unfold mbind, M_bind, getitem, iloc, last_sample, mret, M_ret.
  destruct (s !! key) as [ser|]; [|reflexivity].
  rewrite iloc_get_last. destruct (last ser); reflexivity.
Qed.

Lemma flare_end_condition_run (s : sample_set) :
  flare_end_condition s =
  match s !! "xrsa"%string with
  | None => (Raise (KeyError "xrsa"), s)
  | Some _ => (result_map (fun v => lt v 2.5e-6) (last_sample "xrsb" s), s)
  end.
Proof.
  unfold flare_end_condition.
  unfold mbind at 1. unfold M_bind at 1. unfold getitem at 1.
  destruct (s !! "xrsa"%string); [|reflexivity].
  apply (read_last "xrsb" (fun v => lt v 2.5e-6)).
Qed.

Lemma xrsa_condition_run (s : sample_set) :
  xrsa_condition s = (result_map (fun v => gt v 4.5e-7) (last_sample "xrsa" s), s).
Proof. apply (read_last "xrsa" (fun v => gt v 4.5e-7)). Qed.

Lemma xrsb_condition_run (s : sample_set) :
  xrsb_condition s = (result_map (fun v => gt v 5e-6) (last_sample "xrsb" s), s).
Proof. apply (read_last "xrsb" (fun v => gt v 5e-6)). Qed.

Lemma xrsb_condition2_run (s : sample_set) :
  xrsb_condition2 s = (result_map (fun v => gt v 3e-6) (last_sample "xrsb" s), s).
Proof. apply (read_last "xrsb" (fun v => gt v 3e-6)). Qed.

Lemma temp5min_condition_run (s : sample_set) :
  temp5min_condition s
  = (result_map (fun v => gt v 10.0) (last_sample "5min Temp" s), s).
Proof. apply (read_last "5min Temp" (fun v => gt v 10.0)). Qed.

Lemma xrsa_3mindiff_condition_run (s : sample_set) :
  xrsa_3mindiff_condition s
  = (result_map (fun v => gt v 5e-8) (last_sample "3minxrsadiff" s), s).
Proof. apply (read_last "3minxrsadiff" (fun v => gt v 5e-8)). Qed.

Lemma em3min_condition_run (s : sample_set) :
  em3min_condition s
  = (result_map (fun v => gt v 1e47) (last_sample "5min emission measure" s), s).
Proof. apply (read_last "5min emission measure" (fun v => gt v 1e47)). Qed.

Lemma last_sample_Some (key : string) (s : sample_set) (ser : list float) (v : float) :
  s !! key = Some ser -> last ser = Some v -> last_sample key s = Ok v.
Proof. intros Hkey Hlast. unfold last_sample. rewrite Hkey, Hlast. reflexivity. Qed.

Lemma last_sample_Ok (key : string) (s : sample_set) (v : float) :
  last_sample key s = Ok v -> exists ser, s !! key = Some ser /\ last ser = Some v.
Proof.
  unfold last_sample. destruct (s !! key) as [ser|]; [|discriminate].
  destruct (last ser) as [w|] eqn:Hlast; [|discriminate].
  intros [= ->]. exists ser. split; [reflexivity | assumption].
Qed.

Lemma last_nonempty (ser : list float) : ser <> [] -> exists v, last ser = Some v.
Proof.
  intros Hne. destruct (last ser) as [v|] eqn:Hlast; [eauto|].
  apply last_None in Hlast. contradiction.
Qed.

(** ** The flare end condition *)

(** C1, as stated, fails: with [xrsb] alone in the sample set the flare end
    condition raises [KeyError] for [xrsa], the column its first statement
    reads. *)
Lemma flare_end_condition_without_xrsa :
  xrsb_only !! "xrsb"%string = Some [4e-6; 2e-6]%float /\
  flare_end_condition xrsb_only = (Raise (KeyError "xrsa"), xrsb_only) /\
  ~ (forall (s : sample_set) ser v,
        s !! "xrsb"%string = Some ser -> last ser = Some v ->
        flare_end_condition s = (Ok (lt v 2.5e-6), s)).
Proof.
  assert (Hrun : flare_end_condition xrsb_only = (Raise (KeyError "xrsa"), xrsb_only))
    by (vm_compute; reflexivity).
  split; [reflexivity|]. split; [exact Hrun|].
  intros Hall.
  specialize (Hall xrsb_only [4e-6; 2e-6]%float 2e-6%float eq_refl eq_refl).
  rewrite Hrun in Hall. discriminate Hall.
Qed.

(** C1 (amended): for every sample set in which [xrsa] is present and [xrsb]
    is present and non-empty, the flare end condition returns, without
    raising, whether the last [xrsb] value is below 2.5e-6; no other column
    and no value of [xrsa] matters. *)
Theorem flare_end_condition_ok (s : sample_set) (a b : list float) :
  s !! "xrsa"%string = Some a ->
  s !! "xrsb"%string = Some b ->
  b <> [] ->
  exists v, last b = Some v /\ flare_end_condition s = (Ok (lt v 2.5e-6), s).
Proof.
  intros Ha Hb Hne. destruct (last_nonempty b Hne) as [v Hv].
  exists v. split; [exact Hv|].
  rewrite flare_end_condition_run, Ha, (last_sample_Some _ _ _ _ Hb Hv).
  reflexivity.
Qed.

Lemma flare_end_condition_ok_witness :
  exists v, last [4e-6; 2e-6]%float = Some v /\
            flare_end_condition xrsa_xrsb = (Ok (lt v 2.5e-6), xrsa_xrsb).
Proof.
  apply (flare_end_condition_ok xrsa_xrsb [3e-7; 1e-7]%float [4e-6; 2e-6]%float).
  - reflexivity.
  - reflexivity.
  - discriminate.
Defined.

(** C3: whenever the flare end condition returns a verdict, the verdict is
    true exactly when the last [xrsb] value is strictly below 2.5e-6; a last
    value equal to 2.5e-6, or above it, gives false. *)
Theorem flare_end_condition_iff (s s' : sample_set) (verdict : bool) :
  flare_end_condition s = (Ok verdict, s') ->
  exists b v,
    s !! "xrsb"%string = Some b /\ last b = Some v /\
    verdict = lt v 2.5e-6 /\
    (verdict = true <-> PrimFloat.compare v 2.5e-6 = FLt) /\
    (PrimFloat.compare v 2.5e-6 = FEq \/ PrimFloat.compare v 2.5e-6 = FGt ->
     verdict = false) /\
    (v = 2.5e-6%float -> verdict = false).
Proof.
  rewrite flare_end_condition_run.
  destruct (s !! "xrsa"%string); [|discriminate].
  destruct (last_sample "xrsb" s) as [v|e] eqn:Hlast; [|discriminate].
  simpl. intros [= <- _].
  destruct (last_sample_Ok _ _ _ Hlast) as (b & Hb & Hv).
  exists b, v. split; [exact Hb|]. split; [exact Hv|].
  split; [reflexivity|]. split; [apply lt_compare|]. split.
  - intros Hcmp. destruct (lt v 2.5e-6) eqn:Hlt; [|reflexivity].
    apply lt_compare in Hlt. destruct Hcmp as [Hcmp|Hcmp]; congruence.
  - intros ->. vm_compute. reflexivity.
Qed.

Lemma flare_end_condition_iff_witness :
  exists b v,
    xrsa_xrsb !! "xrsb"%string = Some b /\ last b = Some v /\
    true = lt v 2.5e-6 /\
    (true = true <-> PrimFloat.compare v 2.5e-6 = FLt) /\
    (PrimFloat.compare v 2.5e-6 = FEq \/ PrimFloat.compare v 2.5e-6 = FGt ->
     true = false) /\
    (v = 2.5e-6%float -> true = false).
Proof.
  apply (flare_end_condition_iff xrsa_xrsb xrsa_xrsb true).
  vm_compute. reflexivity.
Defined.

(** C10: the values of [xrsa] do not reach the flare end verdict: two sample
    sets that both hold non-empty [xrsa] and [xrsb] columns and have the same
    last [xrsb] value get the same verdict. *)
Theorem flare_end_condition_ignores_xrsa (s1 s2 : sample_set) (a1 a2 b1 b2 : list float) :
  s1 !! "xrsa"%string = Some a1 -> a1 <> [] ->
  s2 !! "xrsa"%string = Some a2 -> a2 <> [] ->
  s1 !! "xrsb"%string = Some b1 -> b1 <> [] ->
  s2 !! "xrsb"%string = Some b2 -> b2 <> [] ->
  last b1 = last b2 ->
  (flare_end_condition s1).1 = (flare_end_condition s2).1.
Proof.
  intros Ha1 _ Ha2 _ Hb1 _ Hb2 _ Hlast.
  rewrite !flare_end_condition_run, Ha1, Ha2. simpl.
  unfold last_sample. rewrite Hb1, Hb2, Hlast. reflexivity.
Qed.

Lemma flare_end_condition_ignores_xrsa_witness :
  (flare_end_condition xrsa_xrsb).1 = (flare_end_condition quiet_xrsa).1.
Proof.
  apply (flare_end_condition_ignores_xrsa xrsa_xrsb quiet_xrsa
           [3e-7; 1e-7]%float [1e-8]%float [4e-6; 2e-6]%float [9e-6; 2e-6]%float);
    first [reflexivity | discriminate].
Defined.

(** C5, as stated, fails: on the sample set that holds [xrsb = [4e-6, 2e-6]]
    and nothing else the flare end condition raises [KeyError] for [xrsa]
    and returns no verdict. *)
Lemma flare_end_condition_scenario_raises :
  xrsb_only = {[ "xrsb"%string := [4e-6; 2e-6]%float ]} /\
  flare_end_condition xrsb_only = (Raise (KeyError "xrsa"), xrsb_only) /\
  (flare_end_condition xrsb_only).1 <> Ok true.
Proof.
  assert (Hrun : flare_end_condition xrsb_only = (Raise (KeyError "xrsa"), xrsb_only))
    by (vm_compute; reflexivity).
  split; [reflexivity|]. split; [exact Hrun|].
  rewrite Hrun. discriminate.
Qed.

(** C5 (amended): on the sample set with [xrsb = [4e-6, 2e-6]] the XRSB-high
    condition (threshold 5e-6) returns false, and so it does when an [xrsa]
    column is added; with an [xrsa] column of any content added, the flare
    end condition returns true. *)
Theorem flare_end_condition_scenario (a : list float) :
  xrsb_condition xrsb_only = (Ok false, xrsb_only) /\
  xrsb_condition (<[ "xrsa"%string := a ]> xrsb_only)
    = (Ok false, <[ "xrsa"%string := a ]> xrsb_only) /\
  flare_end_condition (<[ "xrsa"%string := a ]> xrsb_only)
    = (Ok true, <[ "xrsa"%string := a ]> xrsb_only).
Proof.
  assert (Hb : (<[ "xrsa"%string := a ]> xrsb_only) !! "xrsb"%string
               = Some [4e-6; 2e-6]%float).
  { rewrite lookup_insert_ne by discriminate. reflexivity. }
  split; [vm_compute; reflexivity|]. split.
  - rewrite xrsb_condition_run, (last_sample_Some _ _ _ 2e-6%float Hb eq_refl).
    vm_compute. reflexivity.
  - rewrite flare_end_condition_run, lookup_insert_eq.
    rewrite (last_sample_Some _ _ _ 2e-6%float Hb eq_refl).
    vm_compute. reflexivity.
Qed.

(** ** The trigger conditions *)

(** C2: on a sample set with a non-empty [xrsb] column the XRSB-high
    condition returns a verdict, and the verdict is true exactly when the
    last [xrsb] value is strictly greater than 5e-6; a last value equal to
    5e-6 gives false. *)
Theorem xrsb_condition_iff (s : sample_set) (b : list float) :
  s !! "xrsb"%string = Some b ->
  b <> [] ->
  exists v verdict,
    last b = Some v /\
    xrsb_condition s = (Ok verdict, s) /\
    verdict = gt v 5e-6 /\
    (verdict = true <-> PrimFloat.compare v 5e-6 = FGt) /\
    (v = 5e-6%float -> verdict = false).
Proof.
  intros Hb Hne. destruct (last_nonempty b Hne) as [v Hv].
  exists v, (gt v 5e-6). split; [exact Hv|]. split.
  - rewrite xrsb_condition_run, (last_sample_Some _ _ _ _ Hb Hv). reflexivity.
  - split; [reflexivity|]. split; [apply gt_compare|].
    intros ->. vm_compute. reflexivity.
Qed.

Lemma xrsb_condition_iff_witness :
  exists v verdict,
    last [4e-6; 2e-6]%float = Some v /\
    xrsb_condition xrsb_only = (Ok verdict, xrsb_only) /\
    verdict = gt v 5e-6 /\
    (verdict = true <-> PrimFloat.compare v 5e-6 = FGt) /\
    (v = 5e-6%float -> verdict = false).
Proof.
  apply (xrsb_condition_iff xrsb_only [4e-6; 2e-6]%float).
  - reflexivity.
  - discriminate.
Defined.

(** C8: the two placeholder triggers return true on every sample set, the
    empty one included, never raise, and leave the sample set as it was. *)
Theorem placeholder_triggers_true (s : sample_set) :
  special_flare_trigger s = (Ok true, s) /\
  magic_flare_trigger s = (Ok true, s) /\
  special_flare_trigger ∅ = (Ok true, ∅) /\
  magic_flare_trigger ∅ = (Ok true, ∅).
Proof. repeat split. Qed.

(** ** Evaluating a registry *)

Lemma evaluate_original_run (s : sample_set) :
  evaluate FLARE_ALERT_MAP s =
  (match last_sample "xrsb" s with
   | Raise e => Raise e
   | Ok vb =>
       match last_sample "5min emission measure" s with
       | Raise e => Raise e
       | Ok ve =>
           Ok (<[ "dEM (3 min)>1e47cm<sup>-2</sup>"%string := gt ve 1e47 ]>
               (<[ "XRSB>5e-6 W/m<sup>2</sup>"%string := gt vb 5e-6 ]> ∅))
       end
   end, s).
Proof.
  unfold evaluate, FLARE_ALERT_MAP. cbn [evaluate_from].
  unfold mbind at 1. unfold M_bind at 1. rewrite xrsb_condition_run.
  destruct (last_sample "xrsb" s) as [vb|e]; [|reflexivity].
  cbn [result_map].
  unfold mbind at 1. unfold M_bind at 1. rewrite em3min_condition_run.
  destruct (last_sample "5min emission measure" s) as [ve|e]; reflexivity.
Qed.

(** C6: on the sample set with [xrsb = [1e-6, 6e-6]] and
    [5min emission measure = [2e46, 2e47]] the original registry evaluates
    without raising, to the mapping that sends both of its labels to true. *)
Theorem evaluate_original_scenario :
  evaluate FLARE_ALERT_MAP xrsb_em =
  (Ok {[ "XRSB>5e-6 W/m<sup>2</sup>"%string := true;
         "dEM (3 min)>1e47cm<sup>-2</sup>"%string := true ]}, xrsb_em).
Proof. vm_compute. reflexivity. Qed.

(** C4, as stated, fails: on the empty sample set the emission measure
    column is absent, yet the exception that ends the evaluation of the
    original registry names [xrsb], the column of the first entry. *)
Lemma evaluate_original_empty_sample_set :
  (∅ : sample_set) !! "5min emission measure"%string = None /\
  evaluate FLARE_ALERT_MAP ∅ = (Raise (KeyError "xrsb"), ∅) /\
  ~ (forall s : sample_set,
        s !! "5min emission measure"%string = None ->
        evaluate FLARE_ALERT_MAP s
        = (Raise (KeyError "5min emission measure"), s)).
Proof.
  assert (Hrun : evaluate FLARE_ALERT_MAP ∅ = (Raise (KeyError "xrsb"), ∅))
    by (vm_compute; reflexivity).
  split; [reflexivity|]. split; [exact Hrun|].
  intros Hall. specialize (Hall ∅ eq_refl).
  rewrite Hrun in Hall. discriminate Hall.
Qed.

(** C4 (amended): for every sample set in which the emission measure column
    is absent or empty, evaluating the original registry raises and returns
    no verdict mapping.  The exception is [KeyError] naming
    [5min emission measure] when that column is absent and [xrsb] is present
    and non-empty; it is [IndexError] when [xrsb] is present and non-empty
    and the emission measure column is empty. *)
Theorem evaluate_original_without_em (s : sample_set) :
  s !! "5min emission measure"%string = None \/
  s !! "5min emission measure"%string = Some [] ->
  exists e,
    evaluate FLARE_ALERT_MAP s = (Raise e, s) /\
    (forall vb, last_sample "xrsb" s = Ok vb ->
        s !! "5min emission measure"%string = None ->
        e = KeyError "5min emission measure") /\
    (forall vb, last_sample "xrsb" s = Ok vb ->
        s !! "5min emission measure"%string = Some [] ->
        e = IndexError).
Proof.
  intros Hem. rewrite evaluate_original_run.
  destruct (last_sample "xrsb" s) as [vb|e].
  - unfold last_sample. destruct Hem as [-> | ->].
    + exists (KeyError "5min emission measure").
      split; [reflexivity|]. split; [reflexivity|]. discriminate.
    + exists IndexError. split; [reflexivity|]. split; [discriminate|reflexivity].
  - exists e. split; [reflexivity|]. split; discriminate.
Qed.

Lemma evaluate_original_without_em_witness :
  exists e,
    evaluate FLARE_ALERT_MAP xrsb_only = (Raise e, xrsb_only) /\
    (forall vb, last_sample "xrsb" xrsb_only = Ok vb ->
        xrsb_only !! "5min emission measure"%string = None ->
        e = KeyError "5min emission measure") /\
    (forall vb, last_sample "xrsb" xrsb_only = Ok vb ->
        xrsb_only !! "5min emission measure"%string = Some [] ->
        e = IndexError).
Proof.
  apply (evaluate_original_without_em xrsb_only).
  left. reflexivity.
Defined.

(** ** What the predicates read *)

Ltac split_elem_of H :=
  repeat (apply elem_of_cons in H as [-> | H]);
  try (apply elem_of_nil in H; contradiction).

Section Agreement.

Variables s1 s2 : sample_set.
Hypothesis Hagree : agree_last2 s1 s2.

Lemma agree_last2_lookup (key : string) :
  match s1 !! key, s2 !! key with
  | Some ser1, Some ser2 => last ser1 = last ser2
  | None, None => True
  | _, _ => False
  end.
Proof.
  destruct Hagree as [Hdom Hlast].
  destruct (s1 !! key) as [ser1|] eqn:H1, (s2 !! key) as [ser2|] eqn:H2.
  - destruct (Hlast key ser1 ser2 H1 H2) as [H _].
    rewrite !iloc_get_last in H. exact H.
  - apply not_elem_of_dom in H2. rewrite <- Hdom in H2.
    apply H2, elem_of_dom. eauto.
  - apply not_elem_of_dom in H1. rewrite Hdom in H1.
    apply H1, elem_of_dom. eauto.
  - exact I.
Qed.

Lemma agree_last_sample (key : string) :
  last_sample key s1 = last_sample key s2.
Proof.
  pose proof (agree_last2_lookup key) as H. unfold last_sample.
  destruct (s1 !! key), (s2 !! key); try contradiction; [|reflexivity].
  rewrite H. reflexivity.
Qed.

Lemma predicates_agree_last2 (p : M bool) :
  p ∈ predicates -> (p s1).1 = (p s2).1.
Proof.
  intros Hp. unfold predicates in Hp. split_elem_of Hp;
    rewrite ?xrsa_condition_run, ?xrsb_condition_run, ?xrsb_condition2_run,
      ?temp5min_condition_run, ?xrsa_3mindiff_condition_run,
      ?em3min_condition_run; cbn [fst];
    rewrite ?agree_last_sample; try reflexivity.
  rewrite !flare_end_condition_run.
  pose proof (agree_last2_lookup "xrsa") as Ha.
  destruct (s1 !! "xrsa"%string), (s2 !! "xrsa"%string); try contradiction;
    cbn [fst]; [|reflexivity].
  rewrite agree_last_sample. reflexivity.
Qed.

End Agreement.

Lemma registered_predicates (entry : string * M bool) :
  entry ∈ FLARE_ALERT_MAP ++ FLARE_ALERT_MAP_NEW -> entry.2 ∈ predicates.
Proof.
  intros H. unfold FLARE_ALERT_MAP, FLARE_ALERT_MAP_NEW in H. cbn [app] in H.
  unfold predicates. split_elem_of H; cbn [snd]; set_solver.
Qed.

(** C7: every registered predicate reads no more than the last two samples
    of the columns: on two sample sets with the same columns that agree on
    the last and second-to-last sample of every column, each predicate of
    either registry gives the same outcome. *)
Theorem registered_predicates_read_last2 (s1 s2 : sample_set) (entry : string * M bool) :
  agree_last2 s1 s2 ->
  entry ∈ FLARE_ALERT_MAP ++ FLARE_ALERT_MAP_NEW ->
  (entry.2 s1).1 = (entry.2 s2).1.
Proof.
  intros Hagree Hentry.
  apply predicates_agree_last2; [exact Hagree | apply registered_predicates, Hentry].
Qed.

Lemma agree_last2_example : agree_last2 xrsb_em long_history.
Proof.
  split; [reflexivity|].
  intros key ser1 ser2 H1 H2. unfold xrsb_em, long_history in H1, H2.
  destruct (decide (key = "xrsb"%string)) as [->|Hb].
  - rewrite lookup_insert_eq in H1, H2.
    injection H1 as <-. injection H2 as <-. split; reflexivity.
  - rewrite lookup_insert_ne in H1, H2 by congruence.
    apply lookup_singleton_Some in H1 as [_ <-].
    apply lookup_singleton_Some in H2 as [_ <-]. split; reflexivity.
Qed.

Lemma registered_predicates_read_last2_witness :
  (xrsb_condition xrsb_em).1 = (xrsb_condition long_history).1.
Proof.
  apply (registered_predicates_read_last2 xrsb_em long_history
           ("XRSB>5e-6 W/m<sup>2</sup>"%string, xrsb_condition)).
  - exact agree_last2_example.
  - unfold FLARE_ALERT_MAP. cbn [app]. constructor.
Defined.

(** ** Purity *)

Lemma read_only_ret {A : Type} (a : A) : read_only (mret a : M A).
Proof. intros s. reflexivity. Qed.

Lemma read_only_bind {A B : Type} (m : M A) (f : A -> M B) :
  read_only m -> (forall a, read_only (f a)) -> read_only (m ≫= f).
Proof.
  intros Hm Hf s. unfold mbind, M_bind. specialize (Hm s).
  destruct (m s) as [[a|e] s']; simpl in Hm; subst s'; [apply Hf | reflexivity].
Qed.

Lemma read_only_getitem (key : string) : read_only (getitem key).
Proof. intros s. unfold getitem. destruct (s !! key); reflexivity. Qed.

Lemma read_only_iloc (ser : list float) (i : Z) : read_only (iloc ser i).
Proof. intros s. unfold iloc. destruct (iloc_get ser i); reflexivity. Qed.

Create HintDb read_only.
#[export] Hint Resolve read_only_ret read_only_getitem read_only_iloc : read_only.
#[export] Hint Extern 2 (read_only (_ ≫= _)) =>
  apply read_only_bind; [|intros ?] : read_only.

Lemma predicates_read_only (p : M bool) : p ∈ predicates -> read_only p.
Proof.
  intros Hp. unfold predicates in Hp. split_elem_of Hp;
    first [ apply read_only_ret
          | unfold xrsa_condition, xrsb_condition, xrsb_condition2,
              temp5min_condition, xrsa_3mindiff_condition, em3min_condition,
              flare_end_condition; cbv zeta; auto 10 with read_only ].
Qed.

Lemma evaluate_from_read_only (registry : list (string * M bool)) :
  Forall (fun entry => entry.2 ∈ predicates) registry ->
  forall verdicts, read_only (evaluate_from verdicts registry).
Proof.
  induction 1 as [|[label predicate] rest Hp _ IH]; intros verdicts.
  - apply read_only_ret.
  - cbn [evaluate_from]. apply read_only_bind.
    + apply predicates_read_only, Hp.
    + intros verdict. apply IH.
Qed.

(** C9: evaluation is deterministic and has no effect on the sample set:
    for a registry of predicates of the module, evaluating it and then
    evaluating it again on the sample set the first evaluation left gives
    the same outcome (the same verdict mapping, or the same exception)
    twice, and the sample set is the initial one after each evaluation. *)
Theorem evaluate_pure (registry : list (string * M bool)) (s s1 s2 : sample_set)
    (r1 r2 : result (gmap string bool)) :
  Forall (fun entry => entry.2 ∈ predicates) registry ->
  evaluate registry s = (r1, s1) ->
  evaluate registry s1 = (r2, s2) ->
  r1 = r2 /\ s1 = s /\ s2 = s.
Proof.
  intros Hreg Hrun1 Hrun2.
  pose proof (evaluate_from_read_only registry Hreg ∅ s) as Hs1.
  fold (evaluate registry) in Hs1. rewrite Hrun1 in Hs1. simpl in Hs1. subst s1.
  rewrite Hrun1 in Hrun2. injection Hrun2 as <- <-. auto.
Qed.

Lemma evaluate_pure_witness :
  Ok (A := gmap string bool)
     {[ "XRSB>5e-6 W/m<sup>2</sup>"%string := true;
        "dEM (3 min)>1e47cm<sup>-2</sup>"%string := true ]}
  = Ok {[ "XRSB>5e-6 W/m<sup>2</sup>"%string := true;
          "dEM (3 min)>1e47cm<sup>-2</sup>"%string := true ]} /\
  xrsb_em = xrsb_em /\ xrsb_em = xrsb_em.
Proof.
  apply (evaluate_pure FLARE_ALERT_MAP xrsb_em xrsb_em xrsb_em).
  - unfold FLARE_ALERT_MAP, predicates. repeat constructor; cbn [snd]; set_solver.
  - vm_compute. reflexivity.
  - vm_compute. reflexivity.
Defined.

(** ** More on binary64 comparisons *)

Lemma SFcompare_Lt_trans (x y z : spec_float) :
  SFcompare x y = Some Lt -> SFcompare y z = Some Lt -> SFcompare x z = Some Lt.
Proof.
  destruct x as [sx|sx| |sx mx ex], y as [sy|sy| |sy my ey], z as [sz|sz| |sz mz ez];
    simpl; try discriminate;
    repeat match goal with b : bool |- _ => destruct b end;
    simpl; try discriminate; try reflexivity;
    change (PosDef.Pos.compare_cont Datatypes.Eq) with Pos.compare;
    intros [= Hxy] [= Hyz]; f_equal;
    destruct (Z.compare_spec ex ey), (Z.compare_spec ey ez), (Z.compare_spec ex ez);
    try discriminate; try reflexivity; try lia; subst;
    destruct (Pos.compare_spec mx my), (Pos.compare_spec my mz), (Pos.compare_spec mx mz);
    simpl in *; try discriminate; try reflexivity; try lia.
Qed.

Lemma SFcompare_refl (x : spec_float) :
  x <> S754_nan -> SFcompare x x = Some Datatypes.Eq.
Proof.
  destruct x as [s|s| |s m e]; simpl; try congruence; try (destruct s; reflexivity).
  intros _. rewrite Z.compare_refl.
  change (PosDef.Pos.compare_cont Datatypes.Eq) with Pos.compare.
  rewrite Pos.compare_refl. destruct s; reflexivity.
Qed.

Lemma lt_SFcompare (x y : float) :
  lt x y = true <-> SFcompare (Prim2SF x) (Prim2SF y) = Some Lt.
Proof.
  unfold lt. rewrite FloatAxioms.ltb_spec. unfold SFltb.
  destruct (SFcompare (Prim2SF x) (Prim2SF y)) as [[| |]|]; split; congruence.
Qed.

Lemma lt_trans (x y z : float) : lt x y = true -> lt y z = true -> lt x z = true.
Proof. rewrite !lt_SFcompare. apply SFcompare_Lt_trans. Qed.

Lemma is_nan_Prim2SF (v : float) : PrimFloat.is_nan v = true -> Prim2SF v = S754_nan.
Proof.
  unfold PrimFloat.is_nan. rewrite FloatAxioms.eqb_spec. unfold SFeqb.
  destruct (Prim2SF v) eqn:Hv; try reflexivity;
    rewrite SFcompare_refl by discriminate; discriminate.
Qed.

(** A comparison with NaN is false, whichever side NaN is on. *)
Lemma lt_nan (v x : float) :
  PrimFloat.is_nan v = true -> lt v x = false /\ lt x v = false.
Proof.
  intros Hnan. apply is_nan_Prim2SF in Hnan.
  unfold lt. rewrite !FloatAxioms.ltb_spec. unfold SFltb. rewrite Hnan.
  split; [reflexivity|]. destruct (Prim2SF x); reflexivity.
Qed.

(** ** The threshold triggers, one statement for the six *)

Ltac split_table H :=
  repeat (apply elem_of_cons in H as [[= -> -> ->] | H]);
  try (apply elem_of_nil in H; contradiction).

Lemma threshold_conditions_run (p : M bool) (key : string) (th : float) (s : sample_set) :
  (p, (key, th)) ∈ threshold_conditions ->
  p s = (result_map (fun v => gt v th) (last_sample key s), s).
Proof.
  intros Hp. unfold threshold_conditions in Hp. split_table Hp.
  - apply xrsa_condition_run.
  - apply xrsb_condition_run.
  - apply xrsb_condition2_run.
  - apply temp5min_condition_run.
  - apply xrsa_3mindiff_condition_run.
  - apply em3min_condition_run.
Qed.

(** X1: each of the six threshold triggers, on a sample set whose column is
    present and non-empty, returns a verdict and leaves the sample set
    alone; the verdict is true exactly when the newest sample of the column
    is strictly greater than the trigger's threshold. *)
Theorem threshold_condition_verdict (p : M bool) (key : string) (th : float)
    (s : sample_set) (ser : list float) :
  (p, (key, th)) ∈ threshold_conditions ->
  s !! key = Some ser ->
  ser <> [] ->
  exists v,
    last ser = Some v /\
    p s = (Ok (gt v th), s) /\
    (gt v th = true <-> PrimFloat.compare v th = FGt).
Proof.
  intros Hp Hkey Hne. destruct (last_nonempty ser Hne) as [v Hv].
  exists v. split; [exact Hv|]. split; [|apply gt_compare].
  rewrite (threshold_conditions_run p key th s Hp).
  rewrite (last_sample_Some _ _ _ _ Hkey Hv). reflexivity.
Qed.

Lemma threshold_condition_verdict_witness :
  exists v,
    last [4e-6; 2e-6]%float = Some v /\
    xrsb_condition2 xrsb_only = (Ok (gt v 3e-6), xrsb_only) /\
    (gt v 3e-6 = true <-> PrimFloat.compare v 3e-6 = FGt).
Proof.
  apply (threshold_condition_verdict xrsb_condition2 "xrsb" 3e-6%float xrsb_only
           [4e-6; 2e-6]%float).
  - unfold threshold_conditions. set_solver.
  - reflexivity.
  - discriminate.
Defined.

(** X2: a threshold trigger whose column is missing raises [KeyError] with
    the name of that column, and one whose column is there but empty raises
    [IndexError]; in both cases the sample set is left as it was. *)
Theorem threshold_condition_errors (p : M bool) (key : string) (th : float)
    (s : sample_set) :
  (p, (key, th)) ∈ threshold_conditions ->
  (s !! key = None -> p s = (Raise (KeyError key), s)) /\
  (s !! key = Some [] -> p s = (Raise IndexError, s)).
Proof.
  intros Hp. rewrite (threshold_conditions_run p key th s Hp).
  unfold last_sample. split; intros ->; reflexivity.
Qed.

Lemma threshold_condition_errors_witness :
  (xrsb_only !! "5min Temp"%string = None ->
   temp5min_condition xrsb_only = (Raise (KeyError "5min Temp"), xrsb_only)) /\
  (xrsb_only !! "5min Temp"%string = Some [] ->
   temp5min_condition xrsb_only = (Raise IndexError, xrsb_only)).
Proof.
  apply (threshold_condition_errors temp5min_condition "5min Temp" 10.0%float xrsb_only).
  unfold threshold_conditions. set_solver.
Defined.

(** X3: the exceptions of the flare end condition come in the order of its
    statements: a missing [xrsa] column is reported first, even when [xrsb]
    is missing too; with [xrsa] present a missing [xrsb] gives [KeyError]
    for [xrsb] and an empty [xrsb] gives [IndexError].  An empty [xrsa]
    column is no error. *)
Theorem flare_end_condition_errors (s : sample_set) :
  (s !! "xrsa"%string = None ->
   flare_end_condition s = (Raise (KeyError "xrsa"), s)) /\
  (is_Some (s !! "xrsa"%string) -> s !! "xrsb"%string = None ->
   flare_end_condition s = (Raise (KeyError "xrsb"), s)) /\
  (is_Some (s !! "xrsa"%string) -> s !! "xrsb"%string = Some [] ->
   flare_end_condition s = (Raise IndexError, s)) /\
  (s !! "xrsa"%string = Some [] ->
   forall b v, s !! "xrsb"%string = Some b -> last b = Some v ->
   flare_end_condition s = (Ok (lt v 2.5e-6), s)).
Proof.
  rewrite flare_end_condition_run. unfold last_sample.
  split; [intros ->; reflexivity|].
  split; [intros [a ->] ->; reflexivity|].
  split; [intros [a ->] ->; reflexivity|].
  intros -> b v -> ->. reflexivity.
Qed.

(** X4: a data gap fires nothing: when the newest sample of its column is
    NaN, each of the six threshold triggers returns false. *)
Theorem threshold_condition_nan (p : M bool) (key : string) (th : float)
    (s : sample_set) (ser : list float) (v : float) :
  (p, (key, th)) ∈ threshold_conditions ->
  s !! key = Some ser ->
  last ser = Some v ->
  PrimFloat.is_nan v = true ->
  p s = (Ok false, s).
Proof.
  intros Hp Hkey Hv Hnan.
  rewrite (threshold_conditions_run p key th s Hp).
  rewrite (last_sample_Some _ _ _ _ Hkey Hv). cbn [result_map].
  unfold gt. change (PrimFloat.ltb th v) with (lt th v).
  destruct (lt_nan v th Hnan) as [_ ->]. reflexivity.
Qed.

Lemma threshold_condition_nan_witness :
  xrsb_condition xrsb_gap = (Ok false, xrsb_gap).
Proof.
  apply (threshold_condition_nan xrsb_condition "xrsb" 5e-6%float xrsb_gap
           [4e-6; PrimFloat.nan]%float PrimFloat.nan).
  - unfold threshold_conditions. set_solver.
  - reflexivity.
  - reflexivity.
  - reflexivity.
Defined.

(** X5: a data gap does not end a flare either: when the newest [xrsb]
    sample is NaN (and [xrsa] is present), the flare end condition returns
    false. *)
Theorem flare_end_condition_nan (s : sample_set) (a b : list float) (v : float) :
  s !! "xrsa"%string = Some a ->
  s !! "xrsb"%string = Some b ->
  last b = Some v ->
  PrimFloat.is_nan v = true ->
  flare_end_condition s = (Ok false, s).
Proof.
  intros Ha Hb Hv Hnan.
  rewrite flare_end_condition_run, Ha, (last_sample_Some _ _ _ _ Hb Hv).
  cbn [result_map]. destruct (lt_nan v 2.5e-6 Hnan) as [-> _]. reflexivity.
Qed.

Lemma flare_end_condition_nan_witness :
  flare_end_condition xrsb_gap = (Ok false, xrsb_gap).
Proof.
  apply (flare_end_condition_nan xrsb_gap [3e-7; 1e-7]%float
           [4e-6; PrimFloat.nan]%float PrimFloat.nan);
    reflexivity.
Defined.

(** X6: the trigger of the new registry is the weaker one: whenever
    [xrsb_condition] (threshold 5e-6) returns true, [xrsb_condition2]
    (threshold 3e-6) returns true on the same sample set. *)
Theorem xrsb_condition_implies_xrsb_condition2 (s s' : sample_set) :
  xrsb_condition s = (Ok true, s') ->
  xrsb_condition2 s = (Ok true, s).
Proof.
  rewrite xrsb_condition_run, xrsb_condition2_run.
  destruct (last_sample "xrsb" s) as [v|e]; [|discriminate].
  cbn [result_map]. intros [= Hgt _]. unfold gt in *.
  change (lt 5e-6 v = true) in Hgt.
  change (PrimFloat.ltb 3e-6 v) with (lt 3e-6 v).
  rewrite (lt_trans 3e-6 5e-6 v); [reflexivity | vm_compute; reflexivity | exact Hgt].
Qed.

Lemma xrsb_condition_implies_xrsb_condition2_witness :
  xrsb_condition2 xrsb_em = (Ok true, xrsb_em).
Proof.
  apply (xrsb_condition_implies_xrsb_condition2 xrsb_em xrsb_em).
  vm_compute. reflexivity.
Defined.

(** X7: a flare is never triggered and ended by the same sample: whenever
    the flare end condition returns true, both XRSB triggers return false
    on that sample set. *)
Theorem flare_end_condition_excludes_triggers (s s' : sample_set) :
  flare_end_condition s = (Ok true, s') ->
  xrsb_condition s = (Ok false, s) /\ xrsb_condition2 s = (Ok false, s).
Proof.
  rewrite flare_end_condition_run, xrsb_condition_run, xrsb_condition2_run.
  destruct (s !! "xrsa"%string); [|discriminate].
  destruct (last_sample "xrsb" s) as [v|e]; [|discriminate].
  cbn [result_map]. intros [= Hlt _].
  assert (Hno : forall th, lt th 2.5e-6 = false -> gt v th = false).
  { intros th Hth. unfold gt. change (PrimFloat.ltb th v) with (lt th v).
    destruct (lt th v) eqn:Hthv; [|reflexivity].
    rewrite (lt_trans th v 2.5e-6 Hthv Hlt) in Hth. discriminate. }
  rewrite !Hno by (vm_compute; reflexivity). split; reflexivity.
Qed.

Lemma flare_end_condition_excludes_triggers_witness :
  xrsb_condition xrsa_xrsb = (Ok false, xrsa_xrsb) /\
  xrsb_condition2 xrsa_xrsb = (Ok false, xrsa_xrsb).
Proof.
  apply (flare_end_condition_excludes_triggers xrsa_xrsb xrsa_xrsb).
  vm_compute. reflexivity.
Defined.

(** X8: only the newest reading counts: once a sample [v] is appended to
    the column of a threshold trigger, the trigger returns whether [v]
    exceeds the threshold, whatever the column held before (nothing at all
    included). *)
Theorem threshold_condition_new_sample (p : M bool) (key : string) (th : float)
    (s : sample_set) (ser : list float) (v : float) :
  (p, (key, th)) ∈ threshold_conditions ->
  p (<[ key := ser ++ [v] ]> s) = (Ok (gt v th), <[ key := ser ++ [v] ]> s).
Proof.
  intros Hp. rewrite (threshold_conditions_run p key th _ Hp).
  rewrite (last_sample_Some key _ (ser ++ [v]) v).
  - reflexivity.
  - apply lookup_insert_eq.
  - apply last_snoc.
Qed.

Lemma threshold_condition_new_sample_witness :
  em3min_condition (<[ "5min emission measure"%string := [2e46]%float ++ [2e47]%float ]> xrsb_only)
  = (Ok (gt 2e47 1e47),
     <[ "5min emission measure"%string := [2e46]%float ++ [2e47]%float ]> xrsb_only).
Proof.
  apply (threshold_condition_new_sample em3min_condition "5min emission measure"
           1e47%float xrsb_only [2e46]%float 2e47%float).
  unfold threshold_conditions. set_solver.
Defined.

(** X9: a threshold trigger looks at its own column only: writing any other
    column of the sample set, new or existing, changes neither its verdict
    nor its exception. *)
Theorem threshold_condition_other_column (p : M bool) (key : string) (th : float)
    (s : sample_set) (other : string) (ser : list float) :
  (p, (key, th)) ∈ threshold_conditions ->
  other <> key ->
  (p (<[ other := ser ]> s)).1 = (p s).1.
Proof.
  intros Hp Hne. rewrite !(threshold_conditions_run p key th _ Hp). cbn [fst].
  unfold last_sample. rewrite lookup_insert_ne by exact Hne. reflexivity.
Qed.

Lemma threshold_condition_other_column_witness :
  (xrsa_3mindiff_condition (<[ "xrsb"%string := [] ]> xrsb_only)).1
  = (xrsa_3mindiff_condition xrsb_only).1.
Proof.
  apply (threshold_condition_other_column xrsa_3mindiff_condition "3minxrsadiff"
           5e-8%float xrsb_only "xrsb" []).
  - unfold threshold_conditions. set_solver.
  - discriminate.
Defined.

(** ** The time display widget: running its methods *)

Module QTimeWidgetFacts.
Import QTimeWidget.

Lemma bind_run {A B : Type} (m : W A) (f : A -> W B) (w : widget) :
  (m ≫= f) w =
  match m w with
  | (Return a, w') => f a w'
  | (Throw e, w') => (Throw e, w')
  end.
Proof. reflexivity. Qed.

Lemma get_flag_Some (w : widget) (name : string) (v : pyval) :
  flags w !! name = Some v -> get_flag name w = (Return v, w).
Proof. intros H. unfold get_flag. rewrite H. reflexivity. Qed.

Lemma get_str_Some (w : widget) (name : string) (v : string) :
  strs w !! name = Some v -> get_str name w = (Return v, w).
Proof. intros H. unfold get_str. rewrite H. reflexivity. Qed.

Lemma get_ref_Some (w : widget) (name : string) (l : nat) :
  refs w !! name = Some l -> get_ref name w = (Return l, w).
Proof. intros H. unfold get_ref. rewrite H. reflexivity. Qed.

Lemma get_layout_Some (w : widget) (g : QGridLayout) :
  _layout w = Some g -> get_layout w = (Return g, w).
Proof. intros H. unfold get_layout. rewrite H. reflexivity. Qed.

Section Shape.

Variables fu fl fw : pyval.
Variables su sl sw tu tl tw : string.
Variable its : list (nat * (nat * nat)).
Variable n : nat.

Lemma set_flag_utc v :
  set_flag "_utc" v (shape fu fl fw su sl sw tu tl tw its n)
  = (Return tt, shape v fl fw su sl sw tu tl tw its n).
Proof. vm_compute. reflexivity. Qed.

Lemma set_flag_local v :
  set_flag "_local" v (shape fu fl fw su sl sw tu tl tw its n)
  = (Return tt, shape fu v fw su sl sw tu tl tw its n).
Proof. vm_compute. reflexivity. Qed.

Lemma set_flag_WSMR v :
  set_flag "_WSMR" v (shape fu fl fw su sl sw tu tl tw its n)
  = (Return tt, shape fu fl v su sl sw tu tl tw its n).
Proof. vm_compute. reflexivity. Qed.

Lemma set_str_utc v :
  set_str "_utc_str" v (shape fu fl fw su sl sw tu tl tw its n)
  = (Return tt, shape fu fl fw v sl sw tu tl tw its n).
Proof. vm_compute. reflexivity. Qed.

Lemma set_str_local v :
  set_str "_local_str" v (shape fu fl fw su sl sw tu tl tw its n)
  = (Return tt, shape fu fl fw su v sw tu tl tw its n).
Proof. vm_compute. reflexivity. Qed.

Lemma set_str_WSMR v :
  set_str "_WSMR_str" v (shape fu fl fw su sl sw tu tl tw its n)
  = (Return tt, shape fu fl fw su sl v tu tl tw its n).
Proof. vm_compute. reflexivity. Qed.

Lemma setText_utc t :
  setText 0 t (shape fu fl fw su sl sw tu tl tw its n)
  = (Return tt, shape fu fl fw su sl sw t tl tw its n).
Proof. vm_compute. reflexivity. Qed.

Lemma setText_local t :
  setText 1 t (shape fu fl fw su sl sw tu tl tw its n)
  = (Return tt, shape fu fl fw su sl sw tu t tw its n).
Proof. vm_compute. reflexivity. Qed.

Lemma setText_WSMR t :
  setText 2 t (shape fu fl fw su sl sw tu tl tw its n)
  = (Return tt, shape fu fl fw su sl sw tu tl t its n).
Proof. vm_compute. reflexivity. Qed.

Lemma set_layout_items g :
  contentsMargins g = Some (0, 0, 0, 0) ->
  set_layout g (shape fu fl fw su sl sw tu tl tw its n)
  = (Return tt, shape fu fl fw su sl sw tu tl tw (items g) n).
Proof. destruct g as [its' m]. simpl. intros ->. reflexivity. Qed.

Lemma update_shape :
  update (shape fu fl fw su sl sw tu tl tw its n)
  = (Return tt, shape fu fl fw su sl sw tu tl tw its (S n)).
Proof. reflexivity. Qed.

End Shape.

Lemma ret_run {A : Type} (a : A) (w : widget) : (mret a : W A) w = (Return a, w).
Proof. reflexivity. Qed.

Ltac lookup_shape :=
  unfold shape; cbn [flags strs refs];
  repeat first
    [ rewrite lookup_insert_eq
    | rewrite lookup_insert_ne by discriminate
    | rewrite lookup_singleton_eq ];
  reflexivity.

Ltac run_shape :=
  repeat first
    [ rewrite bind_run
    | rewrite ret_run
    | rewrite set_flag_utc | rewrite set_flag_local | rewrite set_flag_WSMR
    | rewrite set_str_utc | rewrite set_str_local | rewrite set_str_WSMR
    | rewrite setText_utc | rewrite setText_local | rewrite setText_WSMR
    | rewrite update_shape
    | erewrite get_flag_Some by lookup_shape
    | erewrite get_str_Some by lookup_shape
    | erewrite get_ref_Some by lookup_shape
    | erewrite get_layout_Some by reflexivity
    | rewrite set_layout_items by reflexivity
    | progress cbv beta iota
    | progress cbn [negb]
    | match goal with |- context [truthy ?v] => destruct (truthy v) end ].

Section Facts.

Variable datetime : Type.
Variable strftime : datetime -> string -> string.

Lemma init_shape (now : clock datetime) :
  __init__ strftime now blank =
  (Return tt,
   shape (PyStr "True") (PyStr "True") (PyStr "True")
     (strftime (now_utc now) datetime_str_format)
     (strftime (now_local now) datetime_str_format)
     (strftime (now_mountain now) datetime_str_format)
     (label_format "UTC Time: " (strftime (now_utc now) datetime_str_format) EmptyString)
     (label_format "Local Time: " (strftime (now_local now) datetime_str_format) EmptyString)
     (label_format "WSMR Time: " (strftime (now_mountain now) datetime_str_format) EmptyString)
     [(0, (0, 0)); (1, (0, 1)); (2, (0, 2))]%nat 3).
Proof. vm_compute. reflexivity. Qed.

Lemma include_utc_shape v fu fl fw su sl sw tu tl tw its n :
  include_utc v (shape fu fl fw su sl sw tu tl tw its n) =
  (Return tt,
   shape v fl fw su sl sw tu tl tw
     (if truthy v then its else filter (fun item => item.1 <> 0%nat) its) (S n)).
Proof. unfold include_utc, _trigger_label_update. run_shape; reflexivity. Qed.

Lemma include_local_shape v fu fl fw su sl sw tu tl tw its n :
  include_local v (shape fu fl fw su sl sw tu tl tw its n) =
  (Return tt,
   shape fu v fw su sl sw tu tl tw
     (if truthy v then its else filter (fun item => item.1 <> 1%nat) its) (S n)).
Proof. unfold include_local, _trigger_label_update. run_shape; reflexivity. Qed.

Lemma include_WSMR_shape v fu fl fw su sl sw tu tl tw its n :
  include_WSMR v (shape fu fl fw su sl sw tu tl tw its n) =
  (Return tt,
   shape fu fl v su sl sw tu tl tw
     (if truthy v then its else filter (fun item => item.1 <> 2%nat) its) (S n)).
Proof. unfold include_WSMR, _trigger_label_update. run_shape; reflexivity. Qed.

Lemma cycle_times_shape now fu fl fw su sl sw tu tl tw its n :
  cycle_times strftime now (shape fu fl fw su sl sw tu tl tw its n) =
  (Return tt,
   shape fu fl fw
     (strftime (now_utc now) datetime_str_format)
     (strftime (now_local now) datetime_str_format)
     (strftime (now_mountain now) datetime_str_format)
     (if truthy fu
      then label_format "UTC Time: " (strftime (now_utc now) datetime_str_format) EmptyString
      else tu)
     (if truthy fl
      then label_format "Local Time: " (strftime (now_local now) datetime_str_format) EmptyString
      else tl)
     (if truthy fw
      then label_format "WSMR Time: " (strftime (now_mountain now) datetime_str_format) EmptyString
      else tw)
     its (S n)).
Proof.
  unfold cycle_times, _update_labels, _get_times, _trigger_label_update.
  run_shape; reflexivity.
Qed.

Lemma filter_or_keep (b : bool) (l : nat) (its : list (nat * (nat * nat))) :
  (if b then its else filter (fun item => item.1 <> l) its) ⊆ its.
Proof.
  destruct b; [reflexivity|]. intros item Hitem.
  apply list_elem_of_filter in Hitem. apply Hitem.
Qed.

(** Every call on a built widget returns; the widget stays built, keeps its
    labels, and its grid manages no widget it did not manage before. *)
Lemma run_built (c : call datetime) fu fl fw su sl sw tu tl tw its n :
  exists fu' fl' fw' su' sl' sw' tu' tl' tw' its' n',
    run strftime c (shape fu fl fw su sl sw tu tl tw its n)
    = (Return tt, shape fu' fl' fw' su' sl' sw' tu' tl' tw' its' n') /\
    its' ⊆ its.
Proof.
  destruct c as [v|v|v|now]; cbn [run].
  - rewrite include_utc_shape. do 11 eexists. split; [reflexivity|].
    apply filter_or_keep.
  - rewrite include_local_shape. do 11 eexists. split; [reflexivity|].
    apply filter_or_keep.
  - rewrite include_WSMR_shape. do 11 eexists. split; [reflexivity|].
    apply filter_or_keep.
  - rewrite cycle_times_shape. do 11 eexists. split; reflexivity.
Qed.

Lemma reachable_built (w : widget) : reachable strftime w -> built w.
Proof.
  induction 1 as [now r w Hinit | c w r w' _ IH Hrun].
  - rewrite init_shape in Hinit. injection Hinit as _ <-.
    unfold built. do 11 eexists. reflexivity.
  - destruct IH as (fu & fl & fw & su & sl & sw & tu & tl & tw & its & n & ->).
    destruct (run_built c fu fl fw su sl sw tu tl tw its n)
      as (fu' & fl' & fw' & su' & sl' & sw' & tu' & tl' & tw' & its' & n' & Hc & _).
    rewrite Hc in Hrun. injection Hrun as _ <-.
    unfold built. do 11 eexists. reflexivity.
Qed.

Lemma refs_shape fu fl fw su sl sw tu tl tw its n (name : string) (l : nat) :
  refs (shape fu fl fw su sl sw tu tl tw its n) !! name = Some l <->
  (name = "_label_utc"%string /\ l = 0%nat) \/
  (name = "_label_local"%string /\ l = 1%nat) \/
  (name = "_label_WSMR"%string /\ l = 2%nat).
Proof.
  unfold shape. cbn [refs].
  rewrite !lookup_insert_Some, lookup_singleton_Some. split.
  - intros [[<- <-]|[_ [[<- <-]|[_ [<- <-]]]]]; auto.
  - intros [[-> ->]|[[-> ->]|[-> ->]]].
    + left. auto.
    + right. split; [discriminate|]. left. auto.
    + right. split; [discriminate|]. right. split; [discriminate|]. auto.
Qed.

Lemma label_text_shape fu fl fw su sl sw tu tl tw its n :
  label_text "_label_utc" (shape fu fl fw su sl sw tu tl tw its n) = Some tu /\
  label_text "_label_local" (shape fu fl fw su sl sw tu tl tw its n) = Some tl /\
  label_text "_label_WSMR" (shape fu fl fw su sl sw tu tl tw its n) = Some tw.
Proof. repeat split. Qed.

(** X10: construction never raises, whatever the clock reads.  It leaves the
    three labels in row 0 of the grid, in the columns 0, 1 and 2, each
    showing its prefix and the time of its zone in the format of the
    widget; the three flags are true, the layout is installed and the timer
    runs every 900 ms into [cycle_times]. *)
Theorem init_builds_widget (now : clock datetime) :
  exists w utc local WSMR,
    __init__ strftime now blank = (Return tt, w) /\
    refs w !! "_label_utc"%string = Some utc /\
    refs w !! "_label_local"%string = Some local /\
    refs w !! "_label_WSMR"%string = Some WSMR /\
    layout_items w = [(utc, (0, 0)); (local, (0, 1)); (WSMR, (0, 2))]%nat /\
    label_text "_label_utc" w
    = Some (label_format "UTC Time: "
              (strftime (now_utc now) "%Y/%m/%d, %H:%M:%S") EmptyString) /\
    label_text "_label_local" w
    = Some (label_format "Local Time: "
              (strftime (now_local now) "%Y/%m/%d, %H:%M:%S") EmptyString) /\
    label_text "_label_WSMR" w
    = Some (label_format "WSMR Time: "
              (strftime (now_mountain now) "%Y/%m/%d, %H:%M:%S") EmptyString) /\
    (forall flag, flag ∈ ["_utc"; "_local"; "_WSMR"]%string ->
       truthy <$> flags w !! flag = Some true) /\
    layout w = true /\
    timer w = Some (mkQTimer 900 [slot_cycle_times] true).
Proof.
  eexists. exists 0%nat, 1%nat, 2%nat.
  split; [apply init_shape|].
  repeat (split; [reflexivity|]).
  split; [|split; reflexivity].
  intros flag Hflag.
  repeat (apply elem_of_cons in Hflag as [-> | Hflag]); try reflexivity.
  apply elem_of_nil in Hflag. contradiction.
Qed.

(** X11: once a widget is built, none of its calls raises: each of the
    three [include_] methods, with any argument, and [cycle_times], at any
    time, returns, and leaves a widget on which the same holds. *)
Theorem reachable_call_returns (w : widget) (c : call datetime) :
  reachable strftime w ->
  exists w', run strftime c w = (Return tt, w') /\ reachable strftime w'.
Proof.
  intros Hw.
  destruct (reachable_built w Hw)
    as (fu & fl & fw & su & sl & sw & tu & tl & tw & its & n & Hshape).
  destruct (run_built c fu fl fw su sl sw tu tl tw its n)
    as (fu' & fl' & fw' & su' & sl' & sw' & tu' & tl' & tw' & its' & n' & Hc & _).
  rewrite <- Hshape in Hc. eexists. split; [exact Hc|].
  exact (reachable_call _ strftime c w _ _ Hw Hc).
Qed.

(** X12: a timer tick rewrites the label of each zone whose flag is true to
    the prefix of the zone and the new time, and leaves the label of a zone
    whose flag is false with the text it had: an excluded time is frozen,
    not cleared.  Flags and grid are as before, and one repaint is
    requested. *)
Theorem cycle_times_refreshes (w : widget) (now : clock datetime) :
  reachable strftime w ->
  exists w' utc local WSMR,
    cycle_times strftime now w = (Return tt, w') /\
    flags w !! "_utc"%string = Some utc /\
    flags w !! "_local"%string = Some local /\
    flags w !! "_WSMR"%string = Some WSMR /\
    label_text "_label_utc" w'
    = (if truthy utc
       then Some (label_format "UTC Time: "
                    (strftime (now_utc now) "%Y/%m/%d, %H:%M:%S") EmptyString)
       else label_text "_label_utc" w) /\
    label_text "_label_local" w'
    = (if truthy local
       then Some (label_format "Local Time: "
                    (strftime (now_local now) "%Y/%m/%d, %H:%M:%S") EmptyString)
       else label_text "_label_local" w) /\
    label_text "_label_WSMR" w'
    = (if truthy WSMR
       then Some (label_format "WSMR Time: "
                    (strftime (now_mountain now) "%Y/%m/%d, %H:%M:%S") EmptyString)
       else label_text "_label_WSMR" w) /\
    flags w' = flags w /\
    layout_items w' = layout_items w /\
    updates w' = S (updates w).
Proof.
  intros Hw.
  destruct (reachable_built w Hw)
    as (fu & fl & fw & su & sl & sw & tu & tl & tw & its & n & ->).
  rewrite cycle_times_shape. eexists. exists fu, fl, fw.
  split; [reflexivity|].
  do 3 (split; [reflexivity|]).
  split; [destruct (truthy fu); reflexivity|].
  split; [destruct (truthy fl); reflexivity|].
  split; [destruct (truthy fw); reflexivity|].
  repeat split.
Qed.

Lemma elem_of_filter_fst (l k : nat) (its : list (nat * (nat * nat))) :
  l ∈ (filter (fun item => item.1 <> k) its).*1 <-> l <> k /\ l ∈ its.*1.
Proof.
  rewrite !list_elem_of_fmap. split.
  - intros (item & -> & Hitem). apply list_elem_of_filter in Hitem as [Hne Hitem].
    split; [exact Hne|]. exists item. auto.
  - intros (Hne & item & -> & Hitem). exists item. split; [reflexivity|].
    apply list_elem_of_filter. auto.
Qed.

Lemma in_layout_shape fu fl fw su sl sw tu tl tw its n (name : string) :
  in_layout name (shape fu fl fw su sl sw tu tl tw its n) <->
  (name = "_label_utc"%string /\ 0%nat ∈ its.*1) \/
  (name = "_label_local"%string /\ 1%nat ∈ its.*1) \/
  (name = "_label_WSMR"%string /\ 2%nat ∈ its.*1).
Proof.
  unfold in_layout. split.
  - intros (l & Hl & Hin). apply refs_shape in Hl.
    change (layout_items (shape fu fl fw su sl sw tu tl tw its n)) with its in Hin.
    destruct Hl as [[-> ->]|[[-> ->]|[-> ->]]]; auto.
  - change (layout_items (shape fu fl fw su sl sw tu tl tw its n)) with its.
    intros [[-> Hin]|[[-> Hin]|[-> Hin]]]; eexists; (split; [|exact Hin]);
      apply refs_shape; auto.
Qed.

Ltac split_methods H :=
  repeat (apply elem_of_cons in H as [[= -> -> ->] | H]);
  try (apply elem_of_nil in H; contradiction).

(** X13: what an [include_] method does to a built widget.  It stores its
    argument as the flag of its zone and requests one repaint.  With a true
    argument the grid is as before; with a false one the label of the zone
    is out of the grid afterwards and the labels of the other zones are in
    it exactly if they were.  No label changes its text. *)
Theorem include_method_effect (m : pyval -> W unit) (flag label : string)
    (v : pyval) (w : widget) :
  (m, (flag, label)) ∈ include_methods ->
  reachable strftime w ->
  exists w',
    m v w = (Return tt, w') /\
    flags w' !! flag = Some v /\
    (truthy v = true -> layout_items w' = layout_items w) /\
    (truthy v = false ->
       ~ in_layout label w' /\
       forall other, other <> label -> (in_layout other w' <-> in_layout other w)) /\
    (forall name, label_text name w' = label_text name w) /\
    updates w' = S (updates w).
Proof.
  intros Hm Hw.
  destruct (reachable_built w Hw)
    as (fu & fl & fw & su & sl & sw & tu & tl & tw & its & n & ->).
  unfold include_methods in Hm. split_methods Hm.
  - rewrite include_utc_shape. eexists. split; [reflexivity|].
    split; [reflexivity|]. split; [intros ->; reflexivity|].
    split; [|split; [intros name|]; reflexivity].
    intros ->. split.
    + rewrite in_layout_shape, !elem_of_filter_fst. intuition congruence.
    + intros other Hother. rewrite !in_layout_shape, !elem_of_filter_fst.
      intuition congruence.
  - rewrite include_local_shape. eexists. split; [reflexivity|].
    split; [reflexivity|]. split; [intros ->; reflexivity|].
    split; [|split; [intros name|]; reflexivity].
    intros ->. split.
    + rewrite in_layout_shape, !elem_of_filter_fst. intuition congruence.
    + intros other Hother. rewrite !in_layout_shape, !elem_of_filter_fst.
      intuition congruence.
  - rewrite include_WSMR_shape. eexists. split; [reflexivity|].
    split; [reflexivity|]. split; [intros ->; reflexivity|].
    split; [|split; [intros name|]; reflexivity].
    intros ->. split.
    + rewrite in_layout_shape, !elem_of_filter_fst. intuition congruence.
    + intros other Hother. rewrite !in_layout_shape, !elem_of_filter_fst.
      intuition congruence.
Qed.

(** X14: nothing puts a label back: when the label of an attribute is not
    in the grid of a built widget, it is not in the grid after any call
    either, an [include_] call with a true argument included. *)
Theorem excluded_label_stays_out (w : widget) (name : string) (c : call datetime)
    (r : outcome unit) (w' : widget) :
  reachable strftime w ->
  ~ in_layout name w ->
  run strftime c w = (r, w') ->
  ~ in_layout name w'.
Proof.
  intros Hw Hout Hrun Hin.
  destruct (reachable_built w Hw)
    as (fu & fl & fw & su & sl & sw & tu & tl & tw & its & n & ->).
  destruct (run_built c fu fl fw su sl sw tu tl tw its n)
    as (fu' & fl' & fw' & su' & sl' & sw' & tu' & tl' & tw' & its' & n' & Hc & Hsub).
  rewrite Hc in Hrun. injection Hrun as _ <-.
  apply Hout. rewrite in_layout_shape in Hin |- *.
  assert (Hfst : forall l, l ∈ its'.*1 -> l ∈ its.*1).
  { intros l. rewrite !list_elem_of_fmap. intros (item & -> & Hitem).
    exists item. split; [reflexivity | apply Hsub, Hitem]. }
  destruct Hin as [[-> Hl]|[[-> Hl]|[-> Hl]]]; auto.
Qed.

(** X15: the argument of an [include_] method is tested for truth, not
    read: every non-empty string, the string False included, keeps the zone
    displayed: the flag stored is true and the grid is unchanged. *)
Theorem include_nonempty_string (m : pyval -> W unit) (flag label : string)
    (s : string) (w : widget) :
  (m, (flag, label)) ∈ include_methods ->
  reachable strftime w ->
  s <> EmptyString ->
  exists w',
    m (PyStr s) w = (Return tt, w') /\
    truthy <$> flags w' !! flag = Some true /\
    layout_items w' = layout_items w.
Proof.
  intros Hm Hw Hs.
  destruct (include_method_effect m flag label (PyStr s) w Hm Hw)
    as (w' & Hrun & Hflag & Hkeep & _).
  assert (Htrue : truthy (PyStr s) = true) by (destruct s; [contradiction | reflexivity]).
  exists w'. split; [exact Hrun|]. rewrite Hflag. cbn [fmap option_fmap option_map].
  rewrite Htrue. auto.
Qed.

(** X16: a second timer tick at the same clock reading changes nothing but
    the count of repaints requested. *)
Theorem cycle_times_idempotent (w w1 w2 : widget) (now : clock datetime)
    (r1 r2 : outcome unit) :
  reachable strftime w ->
  cycle_times strftime now w = (r1, w1) ->
  cycle_times strftime now w1 = (r2, w2) ->
  w2 = repaint w1.
Proof.
  intros Hw H1 H2.
  destruct (reachable_built w Hw)
    as (fu & fl & fw & su & sl & sw & tu & tl & tw & its & n & ->).
  rewrite cycle_times_shape in H1. injection H1 as _ <-.
  rewrite cycle_times_shape in H2. injection H2 as _ <-.
  destruct (truthy fu), (truthy fl), (truthy fw); reflexivity.
Qed.

End Facts.

(** ** The time display widget: label texts and sizes *)

Lemma length_append (s1 s2 : string) :
  String.length (String.append s1 s2) = (String.length s1 + String.length s2)%nat.
Proof. induction s1 as [|c s1 IH]; simpl; [reflexivity | rewrite IH; reflexivity]. Qed.

Lemma length_spaces (n : nat) : String.length (spaces n) = n.
Proof. induction n as [|n IH]; simpl; [reflexivity | rewrite IH; reflexivity]. Qed.

Lemma length_ljust (width : nat) (s : string) :
  String.length (ljust width s) = Nat.max width (String.length s).
Proof. unfold ljust. rewrite length_append, length_spaces. lia. Qed.

Lemma append_empty (s : string) : String.append s EmptyString = s.
Proof.
  induction s as [|c s IH]; [reflexivity|].
  change (String c (String.append s EmptyString) = String c s).
  rewrite IH. reflexivity.
Qed.

Lemma ljust_full (width : nat) (s : string) :
  (width <= String.length s)%nat -> ljust width s = s.
Proof.
  intros Hle. unfold ljust.
  replace (width - String.length s)%nat with 0%nat by lia.
  apply append_empty.
Qed.

(** X17: the text of a label is laid out in columns: a prefix of at most 15
    characters is padded with spaces to 15, so the time starts at column
    15; a time string of 20 characters, as the format of the widget gives,
    is neither padded nor cut, and the text is 35 characters and the
    postfix long. *)
Theorem label_format_columns (prefix time postfix : string) :
  (String.length prefix <= 15)%nat ->
  String.length time = 20%nat ->
  label_format prefix time postfix
  = String.append (String.append prefix (spaces (15 - String.length prefix)))
      (String.append time postfix) /\
  String.length (String.append prefix (spaces (15 - String.length prefix))) = 15%nat /\
  String.length (label_format prefix time postfix) = (35 + String.length postfix)%nat.
Proof.
  intros Hp Ht. unfold label_format.
  rewrite (ljust_full 20 time) by lia.
  split; [reflexivity|].
  rewrite !length_append, length_ljust, length_spaces, Ht. lia.
Qed.

Lemma label_format_columns_witness :
  label_format "UTC Time: " "2024/05/01, 12:00:00" EmptyString
  = String.append
      (String.append "UTC Time: " (spaces (15 - String.length "UTC Time: ")))
      (String.append "2024/05/01, 12:00:00" EmptyString) /\
  String.length
    (String.append "UTC Time: " (spaces (15 - String.length "UTC Time: "))) = 15%nat /\
  String.length (label_format "UTC Time: " "2024/05/01, 12:00:00" EmptyString)
  = (35 + String.length EmptyString)%nat.
Proof.
  apply (label_format_columns "UTC Time: " "2024/05/01, 12:00:00" EmptyString).
  - vm_compute. lia.
  - reflexivity.
Defined.

(** X18: [smallest_dim] returns the smaller of the width and the height of
    the device: it is below both, it is one of the two, and it does not
    depend on which of them comes first. *)
Theorem smallest_dim_min (width height : Z) :
  smallest_dim width height = Z.min width height /\
  smallest_dim width height <= width /\
  smallest_dim width height <= height /\
  smallest_dim width height = smallest_dim height width.
Proof.
  unfold smallest_dim.
  destruct (Z.ltb_spec width height), (Z.ltb_spec height width); lia.
Qed.

(** ** The time display widget: examples *)

Lemma at_noon_reachable : reachable plain_strftime at_noon.
Proof.
  apply (reachable_init string plain_strftime noon (Return tt) at_noon).
  vm_compute. reflexivity.
Qed.

Lemma reachable_call_returns_witness :
  exists w',
    run plain_strftime (call_include_local (PyBool false)) at_noon = (Return tt, w') /\
    reachable plain_strftime w'.
Proof.
  apply (reachable_call_returns string plain_strftime at_noon
           (call_include_local (PyBool false))).
  exact at_noon_reachable.
Defined.

Lemma local_out_shape :
  local_out =
  shape (PyStr "True") (PyBool false) (PyStr "True")
    "2024/05/01, 12:00:00" "2024/05/01, 14:00:00" "2024/05/01, 06:00:00"
    (label_format "UTC Time: " "2024/05/01, 12:00:00" EmptyString)
    (label_format "Local Time: " "2024/05/01, 14:00:00" EmptyString)
    (label_format "WSMR Time: " "2024/05/01, 06:00:00" EmptyString)
    [(0, (0, 0)); (2, (0, 2))]%nat 4.
Proof. vm_compute. reflexivity. Qed.

Lemma local_out_reachable : reachable plain_strftime local_out.
Proof.
  apply (reachable_call string plain_strftime (call_include_local (PyBool false))
           at_noon (Return tt) local_out at_noon_reachable).
  vm_compute. reflexivity.
Qed.

Lemma local_out_excluded : ~ in_layout "_label_local" local_out.
Proof.
  rewrite local_out_shape, in_layout_shape.
  intros [[Hname _]|[[_ Hin]|[Hname _]]]; try discriminate.
  repeat (apply elem_of_cons in Hin as [Hin | Hin]; [discriminate|]).
  apply elem_of_nil in Hin. exact Hin.
Qed.

Lemma cycle_times_refreshes_witness :
  exists w' utc local WSMR,
    cycle_times plain_strftime later local_out = (Return tt, w') /\
    flags local_out !! "_utc"%string = Some utc /\
    flags local_out !! "_local"%string = Some local /\
    flags local_out !! "_WSMR"%string = Some WSMR /\
    label_text "_label_utc" w'
    = (if truthy utc
       then Some (label_format "UTC Time: "
                    (plain_strftime (now_utc later) "%Y/%m/%d, %H:%M:%S") EmptyString)
       else label_text "_label_utc" local_out) /\
    label_text "_label_local" w'
    = (if truthy local
       then Some (label_format "Local Time: "
                    (plain_strftime (now_local later) "%Y/%m/%d, %H:%M:%S") EmptyString)
       else label_text "_label_local" local_out) /\
    label_text "_label_WSMR" w'
    = (if truthy WSMR
       then Some (label_format "WSMR Time: "
                    (plain_strftime (now_mountain later) "%Y/%m/%d, %H:%M:%S") EmptyString)
       else label_text "_label_WSMR" local_out) /\
    flags w' = flags local_out /\
    layout_items w' = layout_items local_out /\
    updates w' = S (updates local_out).
Proof.
  apply (cycle_times_refreshes string plain_strftime local_out later).
  exact local_out_reachable.
Defined.

Lemma include_method_effect_witness :
  exists w',
    include_WSMR PyNone at_noon = (Return tt, w') /\
    flags w' !! "_WSMR"%string = Some PyNone /\
    (truthy PyNone = true -> layout_items w' = layout_items at_noon) /\
    (truthy PyNone = false ->
       ~ in_layout "_label_WSMR" w' /\
       forall other, other <> "_label_WSMR"%string ->
         (in_layout other w' <-> in_layout other at_noon)) /\
    (forall name, label_text name w' = label_text name at_noon) /\
    updates w' = S (updates at_noon).
Proof.
  apply (include_method_effect string plain_strftime include_WSMR "_WSMR" "_label_WSMR"
           PyNone at_noon).
  - unfold include_methods. set_solver.
  - exact at_noon_reachable.
Defined.

Lemma excluded_label_stays_out_witness : ~ in_layout "_label_local" local_back.
Proof.
  apply (excluded_label_stays_out string plain_strftime local_out "_label_local"
           (call_include_local (PyBool true)) (Return tt) local_back).
  - exact local_out_reachable.
  - exact local_out_excluded.
  - vm_compute. reflexivity.
Defined.

Lemma include_nonempty_string_witness :
  exists w',
    include_utc (PyStr "False") at_noon = (Return tt, w') /\
    truthy <$> flags w' !! "_utc"%string = Some true /\
    layout_items w' = layout_items at_noon.
Proof.
  apply (include_nonempty_string string plain_strftime include_utc "_utc" "_label_utc"
           "False" at_noon).
  - unfold include_methods. set_solver.
  - exact at_noon_reachable.
  - discriminate.
Defined.

Lemma cycle_times_idempotent_witness :
  (cycle_times plain_strftime later
     (cycle_times plain_strftime later at_noon).2).2
  = repaint (cycle_times plain_strftime later at_noon).2.
Proof.
  apply (cycle_times_idempotent string plain_strftime at_noon
           (cycle_times plain_strftime later at_noon).2
           (cycle_times plain_strftime later
              (cycle_times plain_strftime later at_noon).2).2
           later (Return tt) (Return tt)).
  - exact at_noon_reachable.
  - vm_compute. reflexivity.
  - vm_compute. reflexivity.
Defined.

End QTimeWidgetFacts.
